(** * The timetable store (src/store/timetable.ts) and the teacher-info
      editor (src/components/teacher-info-popup.tsx)

    A shallow embedding of the zustand store of the timetable viewer and of
    the save handler of the teacher-name popup.

    Modelling decisions.
    - A JavaScript string is a Rocq [string] holding its UTF-8 bytes.  The
      store only compares and concatenates strings; the popup measures
      [.length], which counts UTF-16 code units: [js_length] computes that
      count from the UTF-8 bytes.
    - [undefined] and [null] are [None].
    - A plain object used as a dictionary ([teacherInfo] and its inner
      records) is a [gmap] over its own properties; a read [record[name]]
      that finds no own property yields the member of that name of
      [Object.prototype], if there is one ([read_member]).
    - The cookie jar holds the two values the store writes; [JSON.stringify]
      followed by [JSON.parse] is the identity on them.
    - An [async] action runs to completion against the one HTTP response it
      awaits, given as an argument; the queries it sends are appended to a
      log.  Interleavings of two actions in flight are not modelled. *)

From Stdlib Require Import ZArith Ascii String.
From stdpp Require Import base option list strings gmap fin_maps pretty.

Open Scope string_scope.

(** ** Data model *)

(** interface ClassConfig *)
Record ClassConfig := mkClassConfig {
  school : string;
  schoolCode : string;
  grade : string;
  class : string;
  lunchAfter : Z
}.

(** The [original] member of a timetable cell. *)
Record OriginalCell := mkOriginalCell {
  orig_period : Z;
  orig_subject : string;
  orig_teacher : string
}.

(** One element of [TimetableData.timetable[i]]. *)
Record Cell := mkCell {
  period : Z;
  subject : string;
  teacher : string;
  replaced : bool;
  original : option OriginalCell
}.

(** interface TimetableData.  A grid entry is [None] where the JSON holds
    [null]; the store reads entries through [cell?.subject]. *)
Record TimetableData := mkTimetableData {
  day_time : list string;
  timetable : list (list (option Cell));
  update_date : string
}.

(** Record<string, Record<string, string>> *)
Abbreviation OverrideMap := (gmap string (gmap string string)).

(** The persistent and temporary fields of [TimetableState]. *)
Record State := mkState {
  classConfig : ClassConfig;
  teacherInfo : OverrideMap;
  tempConfig : option ClassConfig;
  timetableData : option TimetableData;
  isLoading : bool;
  isWeekChangeLoading : bool;
  error : option string;
  isNextWeek : bool;
  showConfig : bool
}.

(** The two cookies the store reads and writes. *)
Record Cookies := mkCookies {
  cookie_classConfig : option ClassConfig;
  cookie_teacherInfo : option OverrideMap
}.

(** The query of [GET {API_URL}/timetable?grade=&classno=&week=&schoolcode=]. *)
Record Request := mkRequest {
  req_grade : string;
  req_classno : string;
  req_week : string;
  req_schoolcode : string
}.

(** What a [catch (err)] clause can receive: an [Error] instance with its
    message, or some other thrown value. *)
Inductive Thrown :=
  | JsError (message : string)
  | JsOther.

(** What awaiting [fetch(url)] and [response.json()] yields. *)
Inductive Response :=
  | ResponseOk (data : TimetableData)
  | ResponseStatus (status : N)
  | ResponseRejected (e : Thrown).

(** Everything an action can read or change. *)
Record World := mkWorld {
  store : State;
  cookies : Cookies;
  requests : list Request
}.

(** ** Partial updates of the store: [set({ field: v })] *)

Definition set_classConfig (v : ClassConfig) (s : State) : State :=
  mkState v (teacherInfo s) (tempConfig s) (timetableData s) (isLoading s)
          (isWeekChangeLoading s) (error s) (isNextWeek s) (showConfig s).

Definition set_teacherInfo (v : OverrideMap) (s : State) : State :=
  mkState (classConfig s) v (tempConfig s) (timetableData s) (isLoading s)
          (isWeekChangeLoading s) (error s) (isNextWeek s) (showConfig s).

Definition set_tempConfig (v : option ClassConfig) (s : State) : State :=
  mkState (classConfig s) (teacherInfo s) v (timetableData s) (isLoading s)
          (isWeekChangeLoading s) (error s) (isNextWeek s) (showConfig s).

Definition set_timetableData (v : option TimetableData) (s : State) : State :=
  mkState (classConfig s) (teacherInfo s) (tempConfig s) v (isLoading s)
          (isWeekChangeLoading s) (error s) (isNextWeek s) (showConfig s).

Definition set_isLoading (v : bool) (s : State) : State :=
  mkState (classConfig s) (teacherInfo s) (tempConfig s) (timetableData s) v
          (isWeekChangeLoading s) (error s) (isNextWeek s) (showConfig s).

Definition set_isWeekChangeLoading (v : bool) (s : State) : State :=
  mkState (classConfig s) (teacherInfo s) (tempConfig s) (timetableData s)
          (isLoading s) v (error s) (isNextWeek s) (showConfig s).

Definition set_error (v : option string) (s : State) : State :=
  mkState (classConfig s) (teacherInfo s) (tempConfig s) (timetableData s)
          (isLoading s) (isWeekChangeLoading s) v (isNextWeek s) (showConfig s).

Definition set_isNextWeek (v : bool) (s : State) : State :=
  mkState (classConfig s) (teacherInfo s) (tempConfig s) (timetableData s)
          (isLoading s) (isWeekChangeLoading s) (error s) v (showConfig s).

Definition set_showConfig (v : bool) (s : State) : State :=
  mkState (classConfig s) (teacherInfo s) (tempConfig s) (timetableData s)
          (isLoading s) (isWeekChangeLoading s) (error s) (isNextWeek s) v.

(** ** The action monad: state passing with JavaScript exceptions *)

Inductive Completion (A : Type) :=
  | Normal (a : A)
  | Abrupt (e : Thrown).
Arguments Normal {A} a.
Arguments Abrupt {A} e.

Definition Js (A : Type) : Type := World → Completion A * World.

#[global] Instance Js_ret : MRet Js := λ A a w, (Normal a, w).

#[global] Instance Js_bind : MBind Js := λ A B f m w,
  match m w with
  | (Normal a, w') => f a w'
  | (Abrupt e, w') => (Abrupt e, w')
  end.

Definition throw {A} (e : Thrown) : Js A := λ w, (Abrupt e, w).

(** try { body } catch (err) { handler err } *)
Definition try_catch {A} (body : Js A) (handler : Thrown → Js A) : Js A := λ w,
  match body w with
  | (Normal a, w') => (Normal a, w')
  | (Abrupt e, w') => handler e w'
  end.

(** try { body } finally { cleanup }: the cleanup runs on both exits and the
    completion of the body is kept (no cleanup here throws or returns). *)
Definition try_finally {A} (body : Js A) (cleanup : Js unit) : Js A := λ w,
  match body w with
  | (c, w') =>
      match cleanup w' with
      | (Normal _, w'') => (c, w'')
      | (Abrupt e, w'') => (Abrupt e, w'')
      end
  end.

(** get() *)
Definition get : Js State := λ w, (Normal (store w), w).

(** set(partial) *)
Definition set (f : State → State) : Js unit := λ w,
  (Normal tt, mkWorld (f (store w)) (cookies w) (requests w)).

(** getCookie('classConfig'), getCookie('teacherInfo') *)
Definition getCookie_classConfig : Js (option ClassConfig) := λ w,
  (Normal (cookie_classConfig (cookies w)), w).

Definition getCookie_teacherInfo : Js (option OverrideMap) := λ w,
  (Normal (cookie_teacherInfo (cookies w)), w).

(** setCookie('classConfig', JSON.stringify(v)) *)
Definition setCookie_classConfig (v : ClassConfig) : Js unit := λ w,
  (Normal tt,
   mkWorld (store w) (mkCookies (Some v) (cookie_teacherInfo (cookies w)))
           (requests w)).

(** setCookie('teacherInfo', JSON.stringify(v)) *)
Definition setCookie_teacherInfo (v : OverrideMap) : Js unit := λ w,
  (Normal tt,
   mkWorld (store w) (mkCookies (cookie_classConfig (cookies w)) (Some v))
           (requests w)).

(** The three lines every fetching action repeats:
      const response = await fetch(`${API_URL}/timetable?${params}`)
      if (!response.ok) throw new Error(`Error: ${response.status}`)
      const data = await response.json()  *)
Definition fetch_json (params : Request) (r : Response) : Js TimetableData := λ w,
  let w' := mkWorld (store w) (cookies w) (requests w ++ [params]) in
  match r with
  | ResponseOk data => (Normal data, w')
  | ResponseStatus status => (Abrupt (JsError ("Error: " ++ pretty status)), w')
  | ResponseRejected e => (Abrupt e, w')
  end.

Definition run {A} (m : Js A) (w : World) : Completion A * World := m w.
Definition exec {A} (m : Js A) (w : World) : World := snd (m w).
Definition completion {A} (m : Js A) (w : World) : Completion A := fst (m w).

(** ** The store *)

Definition DEFAULT_CONFIG : ClassConfig :=
  mkClassConfig "목운중학교" "7081492" "3" "4" 4.

(** The state the store is created with. *)
Definition initial_state : State :=
  mkState DEFAULT_CONFIG ∅ None None true false None false false.

Definition initial_world : World :=
  mkWorld initial_state (mkCookies None None) [].

(** `${classConfig.schoolCode}-${classConfig.grade}-${classConfig.class}` *)
Definition configKey (c : ClassConfig) : string :=
  schoolCode c ++ "-" ++ grade c ++ "-" ++ class c.

(** A string in a boolean position: only the empty string is falsy. *)
Definition truthy (s : string) : bool :=
  match s with
  | EmptyString => false
  | String _ _ => true
  end.

(** week: isNext ? "1" : "0" *)
Definition week_param (isNext : bool) : string := if isNext then "1" else "0".

(** The message of the [catch] clauses of initializeStore, changeWeek and
    fetchTimetable. *)
Definition loadErrorMessage (err : Thrown) : string :=
  match err with
  | JsError message => "시간표를 불러오는 중 오류가 발생했습니다: " ++ message
  | JsOther => "시간표를 불러오지 못했습니다. 학교 정보와 인터넷 연결을 확인해 주세요."
  end.

(** The message of the [catch] clause of saveConfig. *)
Definition saveErrorMessage (err : Thrown) : string :=
  match err with
  | JsError message => "설정을 저장하는 중 오류가 발생했습니다: " ++ message
  | JsOther => "설정을 저장하지 못했습니다. 학교 정보와 인터넷 연결을 확인해 주세요."
  end.

(** timetableData?.timetable.flat().find(cell => cell?.subject === subject)?.teacher *)
Definition defaultInfo (data : option TimetableData) (subj : string) : option string :=
  d ← data;
  cell ← mjoin (List.find (λ cell, bool_decide (subject <$> cell = Some subj))
                          (List.concat (timetable d)));
  Some (teacher cell).

(** The string stored for a subject under a class key: an own property of
    the record of the class, if the map has both. *)
Definition lookup_override (m : OverrideMap) (key subj : string) : option string :=
  inner ← m !! key; inner !! subj.

(** The names of the own properties of [Object.prototype], which every
    record of the override map inherits. *)
Definition OBJECT_PROTOTYPE : list string :=
  ["constructor"; "__defineGetter__"; "__defineSetter__"; "hasOwnProperty";
   "__lookupGetter__"; "__lookupSetter__"; "isPrototypeOf";
   "propertyIsEnumerable"; "toString"; "valueOf"; "__proto__";
   "toLocaleString"].

Definition inherited (name : string) : bool :=
  bool_decide (name ∈ OBJECT_PROTOTYPE).

(** What [record[name]] yields on a record of the override map: the string
    stored under the name, or else the member of [Object.prototype] of that
    name (a function; the prototype object itself for [__proto__]). *)
Inductive Member :=
  | Stored (value : string)
  | Inherited (name : string).

(** A member in a boolean position: functions and objects are truthy. *)
Definition member_truthy (v : Member) : bool :=
  match v with
  | Stored value => truthy value
  | Inherited _ => true
  end.

(** record[name] *)
Definition read_member (record : gmap string string) (name : string) : option Member :=
  match record !! name with
  | Some value => Some (Stored value)
  | None => if inherited name then Some (Inherited name) else None
  end.

(** teacherInfo[configKey]?.[subject].  The outer read finds own records
    only: a class key holds two hyphens and no name of [OBJECT_PROTOTYPE]
    holds one. *)
Definition read_override (m : OverrideMap) (key subj : string) : option Member :=
  record ← m !! key; read_member record subj.

Definition initializeStore (r : Response) : Js unit :=
  savedConfig ← getCookie_classConfig;
  let config := default DEFAULT_CONFIG savedConfig in
  savedTeacherInfo ← getCookie_teacherInfo;
  let teacherInfo := default ∅ savedTeacherInfo in
  set (set_classConfig config ∘ set_teacherInfo teacherInfo ∘
       set_tempConfig None ∘ set_isLoading true);;
  try_finally
    (try_catch
       (data ← fetch_json
                 (mkRequest (grade config) (class config) "0" (schoolCode config)) r;
        set (set_timetableData (Some data) ∘ set_isNextWeek false ∘ set_error None))
       (λ err, set (set_error (Some (loadErrorMessage err)))))
    (set (set_isLoading false)).

Definition setTempConfig (config : ClassConfig) : Js unit :=
  set (set_tempConfig (Some config)).

Definition resetTempConfig : Js unit :=
  set (set_tempConfig None).

Definition setShowConfig (show : bool) : Js unit :=
  s ← get;
  set (set_showConfig show ∘
       set_tempConfig (if show then tempConfig s else None) ∘
       set_error None).

Definition changeWeek (isNext : bool) (r : Response) : Js unit :=
  s ← get;
  if (isNext && isNextWeek s) || (negb isNext && negb (isNextWeek s))
  then mret tt
  else
    set (set_isWeekChangeLoading true);;
    try_finally
      (try_catch
         (s ← get;
          data ← fetch_json
                   (mkRequest (grade (classConfig s)) (class (classConfig s))
                              (week_param isNext) (schoolCode (classConfig s))) r;
          set (set_timetableData (Some data) ∘ set_isNextWeek isNext ∘
               set_error None))
         (λ err, set (set_error (Some (loadErrorMessage err)))))
      (set (set_isWeekChangeLoading false)).

Definition fetchTimetable (config : option ClassConfig) (r : Response) : Js unit :=
  s ← get;
  let currentConfig := default (classConfig s) config in
  set (set_isLoading true ∘ set_error None);;
  try_finally
    (try_catch
       (s ← get;
        data ← fetch_json
                 (mkRequest (grade currentConfig) (class currentConfig)
                            (week_param (isNextWeek s)) (schoolCode currentConfig)) r;
        set (set_timetableData (Some data)))
       (λ err, set (set_error (Some (loadErrorMessage err)));; throw err))
    (set (set_isLoading false)).

Definition saveConfig (r : Response) : Js bool :=
  s ← get;
  match tempConfig s with
  | None => mret false
  | Some tempConfig =>
      try_catch
        (set (set_isNextWeek false ∘ set_isWeekChangeLoading true);;
         fetchTimetable (Some tempConfig) r;;
         setCookie_classConfig tempConfig;;
         set (set_classConfig tempConfig ∘ set_tempConfig None ∘
              set_showConfig false ∘ set_isWeekChangeLoading false);;
         mret true)
        (λ err, set (set_error (Some (saveErrorMessage err)) ∘
                     set_isWeekChangeLoading false);;
                mret false)
  end.

(** In the branch that deletes, the source copies the outer object only
    ([{ ...teacherInfo }]) and deletes from the inner record in place; the
    state that shared that record is the one [set] replaces, so the map the
    store and the cookie end with is the one built here.  The test before
    the deletion is [if (newInfo[configKey]?.[subject])]: a truthiness test
    of what the read yields, a stored string or an inherited member; deleting
    a name the record does not own changes nothing. *)
Definition saveTeacherInfo (subj info : string) : Js unit :=
  s ← get;
  let key := configKey (classConfig s) in
  let dflt := defaultInfo (timetableData s) subj in
  if bool_decide (Some info ≠ dflt) then
    let newInfo :=
      <[key := <[subj := info]> (default ∅ (teacherInfo s !! key))]> (teacherInfo s) in
    set (set_teacherInfo newInfo);;
    setCookie_teacherInfo newInfo
  else
    match teacherInfo s !! key with
    | Some inner =>
        if from_option member_truthy false (read_member inner subj) then
          let inner' := delete subj inner in
          let newInfo :=
            if bool_decide (size inner' = 0) then delete key (teacherInfo s)
            else <[key := inner']> (teacherInfo s) in
          set (set_teacherInfo newInfo);;
          setCookie_teacherInfo newInfo
        else mret tt
    | None => mret tt
    end.

(** The result is typed [string | undefined], but the override read can
    yield an inherited member, which is returned as it is. *)
Definition getTeacherInfo (subj : string) (s : State) : option Member :=
  let key := configKey (classConfig s) in
  match read_override (teacherInfo s) key subj with
  | Some override => Some override
  | None =>
      match defaultInfo (timetableData s) subj with
      | Some d => if truthy d then Some (Stored d) else None
      | None => None
      end
  end.

(** The world after [set({ teacherInfo: newInfo })] and
    [setCookie('teacherInfo', JSON.stringify(newInfo))]. *)
Definition stored (newInfo : OverrideMap) (w : World) : World :=
  mkWorld (set_teacherInfo newInfo (store w))
          (mkCookies (cookie_classConfig (cookies w)) (Some newInfo))
          (requests w).


(** The value a fetching action's [try] block throws for a response, if any:
    [new Error(`Error: ${response.status}`)] for a response that is not ok,
    the rejection itself when [fetch] or [response.json()] rejects. *)
Definition thrown_by (r : Response) : option Thrown :=
  match r with
  | ResponseOk _ => None
  | ResponseStatus status => Some (JsError ("Error: " ++ pretty status))
  | ResponseRejected e => Some e
  end.


(** ** The teacher-info editor *)

Module TeacherInfoPopup.

(** The three [useState] cells of the component. *)
Record Popup := mkPopup {
  teacherInfo : string;
  isOpen : bool;
  error : string
}.

(** UTF-16 code units contributed by one byte of a UTF-8 string: a
    continuation byte adds none, the lead byte of a four-byte sequence
    adds a surrogate pair, every other byte starts one unit. *)
Definition utf16_units (c : ascii) : nat :=
  let b := N_of_ascii c in
  if (b <? 128)%N then 1
  else if (b <? 192)%N then 0
  else if (b <? 240)%N then 1
  else 2.

(** [s.length] of the JavaScript string whose UTF-8 bytes are [s]. *)
Fixpoint js_length (s : string) : nat :=
  match s with
  | EmptyString => 0
  | String c s' => utf16_units c + js_length s'
  end.

Definition tooLongMessage : string := "선생님 이름은 4자를 초과할 수 없습니다".

(** handleChange: the typed value is kept whatever its length. *)
Definition handleChange (value : string) (p : Popup) : Popup :=
  mkPopup value (isOpen p)
          (if (4 <? js_length value)%nat then tooLongMessage else "").

Definition handleSave (onSave : string → Js unit) (p : Popup) : Js Popup :=
  if (4 <? js_length (teacherInfo p))%nat
  then mret (mkPopup (teacherInfo p) (isOpen p) tooLongMessage)
  else onSave (teacherInfo p);;
       mret (mkPopup (teacherInfo p) false "").

(** Modelled from the spec: the page that mounts the popup is not among
    the sources; section 4.4 says the editor calls [setTeacherOverride]
    on confirm, so its [onSave] is the store's write for the subject. *)
Definition confirm (subj : string) (p : Popup) : Js Popup :=
  handleSave (saveTeacherInfo subj) p.

End TeacherInfoPopup.

(** ** Sample data *)

Definition lesson (subj name : string) : option Cell :=
  Some (mkCell 1 subj name false None).

Definition week_of (cells : list (option Cell)) : TimetableData :=
  mkTimetableData ["월"; "화"] [cells] "2024-03-04".

(** A world at rest: default class, one loaded snapshot, given overrides. *)
Definition world_with (data : TimetableData) (overrides : OverrideMap) : World :=
  mkWorld (mkState DEFAULT_CONFIG overrides None (Some data)
                   false false None false false)
          (mkCookies None (Some overrides)) [].

Definition math_kim : TimetableData :=
  week_of [None; lesson "Math" "Kim"; lesson "Art" ""; lesson "Math" "Park"].

Definition math_lee : TimetableData :=
  week_of [lesson "Math" "Lee"].

Definition other_class : ClassConfig :=
  mkClassConfig "목운중학교" "7081492" "2" "1" 4.

(** The default class with [math_kim] loaded and no override. *)
Definition plain_world : World := world_with math_kim ∅.

(** The same with the override Math -> Lee of the default class. *)
Definition lee_world : World :=
  world_with math_kim {[ configKey DEFAULT_CONFIG := {[ "Math" := "Lee" ]} ]}.

(** The same with an empty-string override for Math. *)
Definition blank_world : World :=
  world_with math_kim {[ configKey DEFAULT_CONFIG := {[ "Math" := "" ]} ]}.

(** A week with two subjects named like members of [Object.prototype], one
    of them without a teacher, and the default class with the override
    Math -> Lee. *)
Definition proto_week : TimetableData :=
  week_of [lesson "Math" "Kim"; lesson "toString" ""; lesson "constructor" "Kim"].

Definition proto_world : World :=
  world_with proto_week {[ configKey DEFAULT_CONFIG := {[ "Math" := "Lee" ]} ]}.

(** The default class with an empty record, as a hand-made cookie could
    leave it. *)
Definition empty_record_world : World :=
  world_with proto_week {[ configKey DEFAULT_CONFIG := ∅ ]}.

(** ** Sequences of store actions *)

(** One call of an action of the store, with the response an asynchronous
    one receives. *)
Inductive Action :=
  | InitializeStore (r : Response)
  | SetTempConfig (config : ClassConfig)
  | ResetTempConfig
  | SetShowConfig (show : bool)
  | ChangeWeek (isNext : bool) (r : Response)
  | SaveConfig (r : Response)
  | SaveTeacherInfo (subj info : string)
  | FetchTimetable (config : option ClassConfig) (r : Response).

(** The world an action call leaves, whether it returned or threw. *)
Definition perform (a : Action) (w : World) : World :=
  match a with
  | InitializeStore r => exec (initializeStore r) w
  | SetTempConfig config => exec (setTempConfig config) w
  | ResetTempConfig => exec resetTempConfig w
  | SetShowConfig show => exec (setShowConfig show) w
  | ChangeWeek isNext r => exec (changeWeek isNext r) w
  | SaveConfig r => exec (saveConfig r) w
  | SaveTeacherInfo subj info => exec (saveTeacherInfo subj info) w
  | FetchTimetable config r => exec (fetchTimetable config r) w
  end.

(** Calls made one after the other, each started when the one before it has
    completed. *)
Definition perform_all (l : list Action) (w : World) : World :=
  foldl (λ w a, perform a w) w l.

(** The response an action call was given, if it takes one. *)
Definition response_of (a : Action) : option Response :=
  match a with
  | InitializeStore r | ChangeWeek _ r | SaveConfig r | FetchTimetable _ r => Some r
  | SetTempConfig _ | ResetTempConfig | SetShowConfig _ | SaveTeacherInfo _ _ => None
  end.

(** The cookies hold what the store holds: reading them back, as
    initializeStore does, gives the identity and the overrides in memory. *)
Definition Persisted (w : World) : Prop :=
  default DEFAULT_CONFIG (cookie_classConfig (cookies w)) = classConfig (store w) ∧
  default ∅ (cookie_teacherInfo (cookies w)) = teacherInfo (store w).

(** Whether the byte [c] occurs in the string. *)
Fixpoint occurs (c : ascii) (s : string) : bool :=
  match s with
  | EmptyString => false
  | String c' s' => if Ascii.eqb c c' then true else occurs c s'
  end.

(** Two identities that differ only in where the hyphens fall. *)
Definition hyphen_school : ClassConfig := mkClassConfig "A" "70-1" "2" "3" 4.
Definition hyphen_grade : ClassConfig := mkClassConfig "B" "70" "1-2" "3" 4.

(** ** The settings dialog (src/components/config-dialog.tsx) *)

Module ConfigDialog.

(** The two members of a keyboard event the handlers read. *)
Record KeyboardEvent := mkKeyboardEvent {
  key : string;
  shiftKey : bool
}.

(** What running a handler on an event leaves behind: the configs handed to
    [onSave], in order, and whether the handler called [stopPropagation]. *)
Record Handled (Config : Type) := mkHandled {
  saved : list Config;
  propagationStopped : bool
}.
Arguments mkHandled {Config} saved propagationStopped.
Arguments saved {Config} h.
Arguments propagationStopped {Config} h.

(** handleSave: onSave(tempConfig) *)
Definition handleSave {Config} (tempConfig : Config) : list Config := [tempConfig].

(** handleKeyDown, mounted on the dialog content. *)
Definition handleKeyDown {Config} (e : KeyboardEvent) (tempConfig : Config)
  : Handled Config :=
  if String.eqb (key e) "Enter" && negb (shiftKey e)
  then mkHandled (handleSave tempConfig) false
  else mkHandled [] false.

(** The onKeyDown of the school name input. *)
Definition schoolKeyDown {Config} (e : KeyboardEvent) (tempConfig : Config)
  : Handled Config :=
  if String.eqb (key e) "Enter"
  then mkHandled (handleSave tempConfig) true
  else mkHandled [] false.

(** A keydown event whose target is the school name input: the handler of
    the input runs first; the event then bubbles to the handler of the dialog
    content around it unless propagation was stopped. *)
Definition keyDownInSchoolInput {Config} (e : KeyboardEvent) (tempConfig : Config)
  : list Config :=
  let h := schoolKeyDown e tempConfig in
  if propagationStopped h then saved h
  else (saved h ++ saved (handleKeyDown e tempConfig))%list.

End ConfigDialog.

(** ** The key handler of the teacher-info editor *)

(** handleKeyDown of teacher-info-popup.tsx: Enter saves, other keys do
    nothing here. *)
Definition popup_handleKeyDown (key : string) (onSave : string → Js unit)
           (p : TeacherInfoPopup.Popup) : Js TeacherInfoPopup.Popup :=
  if String.eqb key "Enter" then TeacherInfoPopup.handleSave onSave p else mret p.

(** No class has an empty record in the override map. *)
Definition NoEmptyRecord (m : OverrideMap) : Prop :=
  ∀ key inner, m !! key = Some inner → inner ≠ ∅.
(** ** Running an action: unfolding lemmas *)

Lemma run_bind {A B} (m : Js A) (f : A → Js B) (w : World) :
  run (m ≫= f) w =
  match run m w with
  | (Normal a, w') => run (f a) w'
  | (Abrupt e, w') => (Abrupt e, w')
  end.
Proof. reflexivity. Qed.

Lemma run_get (w : World) : run get w = (Normal (store w), w).
Proof. reflexivity. Qed.

(** ** The override resolver: the three paths of saveTeacherInfo *)

Section OverrideResolver.
Variables (subj info : string) (w : World).

Local Abbreviation m := (teacherInfo (store w)).
Local Abbreviation key := (configKey (classConfig (store w))).
Local Abbreviation dflt := (defaultInfo (timetableData (store w)) subj).

(** [info !== defaultInfo]: the entry is written. *)
Lemma saveTeacherInfo_write :
  Some info ≠ dflt →
  run (saveTeacherInfo subj info) w =
  (Normal tt, stored (<[key := <[subj := info]> (default ∅ (m !! key))]> m) w).
Proof.
  intros Hne. unfold saveTeacherInfo.
  rewrite run_bind, run_get. simpl.
  by rewrite bool_decide_true.
Qed.

(** [info === defaultInfo] and the read of the entry is truthy (a non-empty
    stored string, or an inherited member): the name is deleted from the
    record, and the record with it when nothing is left. *)
Lemma saveTeacherInfo_erase (inner : gmap string string) :
  Some info = dflt →
  m !! key = Some inner →
  from_option member_truthy false (read_member inner subj) = true →
  run (saveTeacherInfo subj info) w =
  (Normal tt,
   stored (if bool_decide (size (delete subj inner) = 0) then delete key m
           else <[key := delete subj inner]> m) w).
Proof.
  intros Heq Hk Hv. unfold saveTeacherInfo.
  rewrite run_bind, run_get. simpl.
  rewrite bool_decide_false by (intros ?; congruence).
  rewrite Hk. by rewrite Hv.
Qed.

(** [info === defaultInfo] and the read of the entry is undefined or the
    empty string: nothing is written. *)
Lemma saveTeacherInfo_skip :
  Some info = dflt →
  from_option member_truthy false (read_override m key subj) = false →
  run (saveTeacherInfo subj info) w = (Normal tt, w).
Proof.
  intros Heq Hv. unfold saveTeacherInfo.
  rewrite run_bind, run_get. simpl.
  rewrite bool_decide_false by (intros ?; congruence).
  unfold read_override in Hv.
  destruct (m !! key) as [inner|]; simpl in *; [|done].
  by rewrite Hv.
Qed.

End OverrideResolver.

(** ** Reads and stored entries *)

Lemma read_override_stored (m : OverrideMap) (key subj value : string) :
  lookup_override m key subj = Some value →
  read_override m key subj = Some (Stored value).
Proof.
  unfold lookup_override, read_override, read_member.
  destruct (m !! key) as [inner|]; simpl; [|done]. by intros ->.
Qed.

Lemma read_override_own (m : OverrideMap) (key subj : string) :
  inherited subj = false →
  read_override m key subj = Stored <$> lookup_override m key subj.
Proof.
  intros Hi. unfold lookup_override, read_override, read_member.
  destruct (m !! key) as [inner|]; simpl; [|done].
  destruct (inner !! subj); [done|]. by rewrite Hi.
Qed.

Lemma read_override_no_record (m : OverrideMap) (key subj : string) :
  m !! key = None → read_override m key subj = None.
Proof. intros Hk. unfold read_override. by rewrite Hk. Qed.

(** A truthy read with nothing stored is an inherited member; a read that is
    not truthy is a stored empty string or nothing. *)
Lemma read_member_truthy (inner : gmap string string) (subj : string) :
  from_option member_truthy false (read_member inner subj)
  = match inner !! subj with
    | Some value => truthy value
    | None => inherited subj
    end.
Proof.
  unfold read_member. destruct (inner !! subj); [done|].
  by destruct (inherited subj).
Qed.

(** ** Lookups in a rewritten override map *)

Lemma lookup_override_write (m : OverrideMap) (key subj v k s : string) :
  lookup_override (<[key := <[subj := v]> (default ∅ (m !! key))]> m) k s =
  if decide (k = key ∧ s = subj) then Some v else lookup_override m k s.
Proof.
  unfold lookup_override.
  destruct (decide (k = key)) as [->|Hk].
  - rewrite lookup_insert_eq. simpl.
    destruct (decide (s = subj)) as [->|Hs].
    + rewrite lookup_insert_eq. by rewrite decide_True.
    + rewrite lookup_insert_ne by done.
      rewrite decide_False by (intros [_ ?]; done).
      destruct (m !! key); simpl; [done | apply lookup_empty].
  - rewrite lookup_insert_ne by done.
    by rewrite decide_False by (intros [? _]; done).
Qed.

Lemma lookup_override_erase (m : OverrideMap) (inner : gmap string string)
      (key subj k s : string) :
  m !! key = Some inner →
  lookup_override (if bool_decide (size (delete subj inner) = 0)
                   then delete key m else <[key := delete subj inner]> m) k s =
  if decide (k = key ∧ s = subj) then None else lookup_override m k s.
Proof.
  intros Hin. unfold lookup_override.
  destruct (decide (k = key)) as [->|Hk].
  - rewrite Hin. simpl.
    assert (Hdel : (if bool_decide (size (delete subj inner) = 0)
                    then delete key m else <[key := delete subj inner]> m) !! key
                   ≫= (λ i : gmap string string, i !! s)
                   = delete subj inner !! s).
    { case_bool_decide as Hsz.
      - rewrite lookup_delete_eq. simpl.
        apply map_size_empty_iff in Hsz. rewrite Hsz. by rewrite lookup_empty.
      - by rewrite lookup_insert_eq. }
    rewrite Hdel.
    destruct (decide (s = subj)) as [->|Hs].
    + rewrite lookup_delete_eq. by rewrite decide_True.
    + rewrite lookup_delete_ne by done.
      by rewrite decide_False by (intros [_ ?]; done).
  - rewrite decide_False by (intros [? _]; done).
    case_bool_decide.
    + by rewrite lookup_delete_ne.
    + by rewrite lookup_insert_ne.
Qed.

(** ** What saveTeacherInfo leaves alone, and what it stores *)

Section SaveTeacherInfo.
Variables (subj info : string) (w : World).

Local Abbreviation m := (teacherInfo (store w)).
Local Abbreviation key := (configKey (classConfig (store w))).
Local Abbreviation dflt := (defaultInfo (timetableData (store w)) subj).
Local Abbreviation w' := (exec (saveTeacherInfo subj info) w).

(** The three paths, as one case analysis on the call. *)
Lemma saveTeacherInfo_cases :
  (∃ newInfo, run (saveTeacherInfo subj info) w = (Normal tt, stored newInfo w))
  ∨ run (saveTeacherInfo subj info) w = (Normal tt, w).
Proof.
  destruct (decide (Some info = dflt)) as [Heq|Hne].
  - destruct (m !! key) as [inner|] eqn:Hk.
    + destruct (from_option member_truthy false (read_member inner subj)) eqn:Hv.
      * left. eexists. by eapply saveTeacherInfo_erase.
      * right. apply saveTeacherInfo_skip; [done|].
        unfold read_override. by rewrite Hk.
    + right. apply saveTeacherInfo_skip; [done|].
      by rewrite read_override_no_record.
  - left. eexists. by apply saveTeacherInfo_write.
Qed.

Lemma saveTeacherInfo_frame :
  completion (saveTeacherInfo subj info) w = Normal tt ∧
  classConfig (store w') = classConfig (store w) ∧
  timetableData (store w') = timetableData (store w) ∧
  tempConfig (store w') = tempConfig (store w) ∧
  requests w' = requests w ∧
  cookie_classConfig (cookies w') = cookie_classConfig (cookies w).
Proof.
  unfold exec, completion.
  destruct saveTeacherInfo_cases as [[newInfo H]|H];
    unfold run in H; rewrite H; done.
Qed.

Lemma saveTeacherInfo_lookup (k s : string) :
  lookup_override (teacherInfo (store w')) k s =
  if decide (k = key ∧ s = subj) then
    if bool_decide (Some info ≠ dflt) then Some info
    else old ← lookup_override m key subj;
         if truthy old then None else Some old
  else lookup_override m k s.
Proof.
  unfold exec.
  destruct (decide (Some info = dflt)) as [Heq|Hne].
  - rewrite (bool_decide_false (Some info ≠ dflt)) by (intros ?; congruence).
    destruct (m !! key) as [inner|] eqn:Hk.
    + destruct (from_option member_truthy false (read_member inner subj)) eqn:Hv.
      * pose proof (saveTeacherInfo_erase subj info w inner Heq Hk Hv) as H.
        unfold run in H. rewrite H. simpl.
        rewrite (lookup_override_erase _ _ _ _ _ _ Hk).
        destruct (decide (k = key ∧ s = subj)); [|done].
        unfold lookup_override. rewrite Hk. simpl.
        rewrite read_member_truthy in Hv.
        destruct (inner !! subj); simpl; [by rewrite Hv | done].
      * assert (Hv' : from_option member_truthy false (read_override m key subj)
                      = false) by (unfold read_override; by rewrite Hk).
        pose proof (saveTeacherInfo_skip subj info w Heq Hv') as H.
        unfold run in H. rewrite H. simpl.
        destruct (decide (k = key ∧ s = subj)) as [[-> ->]|]; [|done].
        unfold lookup_override. rewrite Hk. simpl.
        rewrite read_member_truthy in Hv.
        destruct (inner !! subj); simpl; [by rewrite Hv | done].
    + assert (Hv' : from_option member_truthy false (read_override m key subj)
                    = false) by (by rewrite read_override_no_record).
      pose proof (saveTeacherInfo_skip subj info w Heq Hv') as H.
      unfold run in H. rewrite H. simpl.
      destruct (decide (k = key ∧ s = subj)) as [[-> ->]|]; [|done].
      unfold lookup_override. by rewrite Hk.
  - rewrite (bool_decide_true (Some info ≠ dflt)) by done.
    pose proof (saveTeacherInfo_write subj info w Hne) as H.
    unfold run in H. rewrite H. simpl.
    apply lookup_override_write.
Qed.

End SaveTeacherInfo.

(** ** The default of a subject is the teacher of its first cell *)

Lemma find_first_match {A} (f : A → bool) (l pre post : list A) (x : A) :
  l = (pre ++ x :: post)%list → f x = true → (∀ y, y ∈ pre → f y = false) →
  List.find f l = Some x.
Proof.
  intros -> Hx. induction pre as [|y pre IH]; intros Hpre; simpl.
  - by rewrite Hx.
  - rewrite (Hpre y) by apply list_elem_of_here.
    apply IH. intros z Hz. apply Hpre. by apply list_elem_of_further.
Qed.

Lemma defaultInfo_first_match (d : TimetableData) (subj : string)
      (pre post : list (option Cell)) (c : Cell) :
  List.concat (timetable d) = (pre ++ Some c :: post)%list →
  subject c = subj →
  (∀ x, x ∈ pre → subject <$> x ≠ Some subj) →
  defaultInfo (Some d) subj = Some (teacher c).
Proof.
  intros Hflat Hc Hpre. unfold defaultInfo. simpl.
  rewrite (find_first_match _ _ pre post (Some c) Hflat).
  - done.
  - apply bool_decide_eq_true. simpl. by rewrite Hc.
  - intros y Hy. apply bool_decide_eq_false. by apply Hpre.
Qed.

(** ** The sample worlds are states the store reaches *)

Example sample_worlds_reachable :
  exec (saveTeacherInfo "Math" "Lee") plain_world = lee_world ∧
  exec (saveTeacherInfo "Math" "") plain_world = blank_world ∧
  exec (saveTeacherInfo "Math" "Kim") lee_world = plain_world ∧
  exec (saveTeacherInfo "Math" "Lee") (world_with proto_week ∅) = proto_world.
Proof. repeat split; by vm_compute. Qed.

(** ** Claims about the override resolver *)

(** C3: for every class identity, subject and entered name that differs from
    the server default of the subject (also when the subject has none),
    after saveTeacherInfo the override map holds the entered name under the
    class key and the subject, the same map is in the cookie, and
    getTeacherInfo returns the entered name. *)
Theorem saveTeacherInfo_differing_name_is_effective
        (subj info : string) (w : World) :
  Some info ≠ defaultInfo (timetableData (store w)) subj →
  classConfig (store (exec (saveTeacherInfo subj info) w)) = classConfig (store w) ∧
  lookup_override (teacherInfo (store (exec (saveTeacherInfo subj info) w)))
                  (configKey (classConfig (store w))) subj = Some info ∧
  cookie_teacherInfo (cookies (exec (saveTeacherInfo subj info) w))
    = Some (teacherInfo (store (exec (saveTeacherInfo subj info) w))) ∧
  getTeacherInfo subj (store (exec (saveTeacherInfo subj info) w))
    = Some (Stored info).
Proof.
  intros Hne.
  destruct (saveTeacherInfo_frame subj info w) as (_ & Hcfg & _).
  assert (Hl : lookup_override
                 (teacherInfo (store (exec (saveTeacherInfo subj info) w)))
                 (configKey (classConfig (store w))) subj = Some info).
  { rewrite saveTeacherInfo_lookup.
    rewrite decide_True by done. by rewrite bool_decide_true. }
  split; [done|]. split; [done|]. split.
  - unfold exec. pose proof (saveTeacherInfo_write subj info w Hne) as H.
    unfold run in H. by rewrite H.
  - unfold getTeacherInfo. rewrite Hcfg.
    by rewrite (read_override_stored _ _ _ _ Hl).
Qed.

Lemma saveTeacherInfo_differing_name_is_effective_witness :
  Some "Lee" ≠ defaultInfo (timetableData (store plain_world)) "Math" ∧
  lookup_override (teacherInfo (store (exec (saveTeacherInfo "Math" "Lee") plain_world)))
                  (configKey (classConfig (store plain_world))) "Math" = Some "Lee" ∧
  getTeacherInfo "Math" (store (exec (saveTeacherInfo "Math" "Lee") plain_world))
    = Some (Stored "Lee").
Proof.
  assert (H : Some "Lee" ≠ defaultInfo (timetableData (store plain_world)) "Math")
    by (vm_compute; discriminate).
  split; [exact H|].
  destruct (saveTeacherInfo_differing_name_is_effective "Math" "Lee" plain_world H)
    as (_ & Hl & _ & Hg).
  split; [exact Hl | exact Hg].
Defined.

(** C1, as the code has it: for every class identity K and subject S whose
    server default is D, after saveTeacherInfo(S, D) the override map has no
    entry for (K, S) whenever the entry stored before was absent or a
    non-empty string; and when S is not the name of a member of
    Object.prototype, getTeacherInfo(S) then returns D when D is non-empty
    and undefined when D is the empty string. *)
Theorem saveTeacherInfo_default_clears_override (subj d : string) (w : World) :
  defaultInfo (timetableData (store w)) subj = Some d →
  lookup_override (teacherInfo (store w)) (configKey (classConfig (store w))) subj
    ≠ Some "" →
  lookup_override (teacherInfo (store (exec (saveTeacherInfo subj d) w)))
                  (configKey (classConfig (store w))) subj = None ∧
  (inherited subj = false →
   getTeacherInfo subj (store (exec (saveTeacherInfo subj d) w))
     = (if truthy d then Some (Stored d) else None)).
Proof.
  intros Hd Hold.
  destruct (saveTeacherInfo_frame subj d w) as (_ & Hcfg & Hdata & _).
  assert (Hl : lookup_override
                 (teacherInfo (store (exec (saveTeacherInfo subj d) w)))
                 (configKey (classConfig (store w))) subj = None).
  { rewrite saveTeacherInfo_lookup.
    rewrite decide_True by done.
    rewrite bool_decide_false by (intros H; by apply H).
    destruct (lookup_override _ _ subj) as [old|]; simpl; [|done].
    destruct old; [done | done]. }
  split; [done|].
  intros Hown. unfold getTeacherInfo.
  rewrite Hcfg, (read_override_own _ _ _ Hown), Hl, Hdata. by rewrite Hd.
Qed.

Lemma saveTeacherInfo_default_clears_override_witness :
  defaultInfo (timetableData (store lee_world)) "Math" = Some "Kim" ∧
  lookup_override (teacherInfo (store lee_world))
                  (configKey (classConfig (store lee_world))) "Math" ≠ Some "" ∧
  inherited "Math" = false ∧
  lookup_override (teacherInfo (store (exec (saveTeacherInfo "Math" "Kim") lee_world)))
                  (configKey (classConfig (store lee_world))) "Math" = None ∧
  getTeacherInfo "Math" (store (exec (saveTeacherInfo "Math" "Kim") lee_world))
    = Some (Stored "Kim").
Proof.
  assert (H1 : defaultInfo (timetableData (store lee_world)) "Math" = Some "Kim")
    by reflexivity.
  assert (H2 : lookup_override (teacherInfo (store lee_world))
                 (configKey (classConfig (store lee_world))) "Math" ≠ Some "")
    by (vm_compute; discriminate).
  assert (H3 : inherited "Math" = false) by reflexivity.
  split; [exact H1|]. split; [exact H2|]. split; [exact H3|].
  destruct (saveTeacherInfo_default_clears_override "Math" "Kim" lee_world H1 H2)
    as [Hl Hg].
  split; [exact Hl | exact (Hg H3)].
Defined.

(** C1 fails as stated: the server default of Art in [math_kim] is the empty
    string; after saveTeacherInfo("Art", "") the read path returns undefined,
    not that default. *)
Lemma saveTeacherInfo_empty_default_reads_undefined :
  defaultInfo (timetableData (store plain_world)) "Art" = Some "" ∧
  getTeacherInfo "Art" (store (exec (saveTeacherInfo "Art" "") plain_world))
    ≠ Some (Stored "").
Proof. split; [reflexivity | vm_compute; discriminate]. Qed.

(** Line 231 of the store tests the stored entry for truthiness before
    deleting it: an empty-string override survives a write of the default
    and keeps masking it. *)
Example saveTeacherInfo_keeps_empty_override :
  defaultInfo (timetableData (store blank_world)) "Math" = Some "Kim" ∧
  exec (saveTeacherInfo "Math" "Kim") blank_world = blank_world ∧
  getTeacherInfo "Math" (store (exec (saveTeacherInfo "Math" "Kim") blank_world))
    = Some (Stored "").
Proof. split; [reflexivity|]. split; [|reflexivity]. by vm_compute. Qed.

(** The same test passes on a member the record inherits: the write of the
    default for a subject named like one runs [set] and [setCookie] with an
    unchanged map, and getTeacherInfo returns the inherited member, not the
    default. *)
Example saveTeacherInfo_default_of_inherited_name :
  defaultInfo (timetableData (store proto_world)) "constructor" = Some "Kim" ∧
  lookup_override (teacherInfo (store proto_world))
                  (configKey (classConfig (store proto_world))) "constructor" = None ∧
  teacherInfo (store (exec (saveTeacherInfo "constructor" "Kim") proto_world))
  = teacherInfo (store proto_world) ∧
  getTeacherInfo "constructor"
    (store (exec (saveTeacherInfo "constructor" "Kim") proto_world))
    = Some (Inherited "constructor").
Proof. repeat split; by vm_compute. Qed.

(** C10, where the code departs from it: in [proto_world] nothing is stored
    for the current class key and the subject toString, and the first cell of
    that subject carries the empty string as its teacher, so getTeacherInfo
    should return undefined; the class has a record (for Math), the read
    [teacherInfo[configKey]?.[subject]] finds the toString the record
    inherits, and that function is returned. *)
Theorem getTeacherInfo_inherited_member_masks_empty_default :
  lookup_override (teacherInfo (store proto_world))
                  (configKey (classConfig (store proto_world))) "toString" = None ∧
  defaultInfo (timetableData (store proto_world)) "toString" = Some "" ∧
  getTeacherInfo "toString" (store proto_world) = Some (Inherited "toString").
Proof. repeat split; by vm_compute. Qed.

(** ** Writing twice *)

Lemma saveTeacherInfo_twice (subj info : string) (w : World) :
  exec (saveTeacherInfo subj info) (exec (saveTeacherInfo subj info) w)
  = exec (saveTeacherInfo subj info) w.
Proof.
  unfold exec.
  destruct (decide (Some info = defaultInfo (timetableData (store w)) subj))
    as [Heq|Hne].
  - destruct (teacherInfo (store w) !! configKey (classConfig (store w)))
      as [inner|] eqn:Hk.
    + destruct (from_option member_truthy false (read_member inner subj)) eqn:Hv.
      * pose proof (saveTeacherInfo_erase subj info w inner Heq Hk Hv) as H.
        unfold run in H. rewrite H. simpl.
        case_bool_decide as Hsz.
        -- (* the record is gone: the second call finds no record *)
           pose proof (saveTeacherInfo_skip subj info
                         (stored (delete (configKey (classConfig (store w)))
                                         (teacherInfo (store w))) w) Heq) as H2.
           unfold run in H2. rewrite H2; [done|].
           simpl. rewrite read_override_no_record; [done|].
           apply lookup_delete_eq.
        -- (* the record stays: the second call finds the name gone, or
              inherited and deletes it again *)
           destruct (inherited subj) eqn:Hi.
           ++ assert (Hv2 : from_option member_truthy false
                              (read_member (delete subj inner) subj) = true).
              { rewrite read_member_truthy, lookup_delete_eq. done. }
              pose proof (saveTeacherInfo_erase subj info
                            (stored (<[configKey (classConfig (store w))
                                       := delete subj inner]>
                                     (teacherInfo (store w))) w)
                            (delete subj inner) Heq
                            (lookup_insert_eq _ _ _) Hv2) as H2.
              unfold run in H2. rewrite H2. simpl.
              rewrite delete_delete_eq.
              rewrite bool_decide_false by done.
              by rewrite insert_insert_eq.
           ++ pose proof (saveTeacherInfo_skip subj info
                            (stored (<[configKey (classConfig (store w))
                                       := delete subj inner]>
                                     (teacherInfo (store w))) w) Heq) as H2.
              unfold run in H2. rewrite H2; [done|].
              simpl. unfold read_override. rewrite lookup_insert_eq. simpl.
              rewrite read_member_truthy, lookup_delete_eq. done.
      * assert (Hv' : from_option member_truthy false
                        (read_override (teacherInfo (store w))
                                       (configKey (classConfig (store w))) subj)
                      = false) by (unfold read_override; by rewrite Hk).
        pose proof (saveTeacherInfo_skip subj info w Heq Hv') as H.
        unfold run in H. rewrite H. simpl. by rewrite H.
    + assert (Hv' : from_option member_truthy false
                      (read_override (teacherInfo (store w))
                                     (configKey (classConfig (store w))) subj)
                    = false) by (by rewrite read_override_no_record).
      pose proof (saveTeacherInfo_skip subj info w Heq Hv') as H.
      unfold run in H. rewrite H. simpl. by rewrite H.
  - pose proof (saveTeacherInfo_write subj info w Hne) as H.
    unfold run in H. rewrite H. simpl.
    pose proof (saveTeacherInfo_write subj info
                  (stored (<[configKey (classConfig (store w))
                             := <[subj := info]>
                                  (default ∅ (teacherInfo (store w)
                                              !! configKey (classConfig (store w))))]>
                           (teacherInfo (store w))) w) Hne) as H2.
    unfold run in H2. rewrite H2. simpl.
    rewrite lookup_insert_eq. simpl.
    rewrite !insert_insert_eq. reflexivity.
Qed.

(** C7: applying the same override write twice in succession yields exactly
    the override map one application yields, in the store and in the cookie,
    for every subject, entered name and starting state. *)
Theorem saveTeacherInfo_idempotent (subj info : string) (w : World) :
  teacherInfo (store (exec (saveTeacherInfo subj info)
                           (exec (saveTeacherInfo subj info) w)))
  = teacherInfo (store (exec (saveTeacherInfo subj info) w)) ∧
  cookie_teacherInfo (cookies (exec (saveTeacherInfo subj info)
                                    (exec (saveTeacherInfo subj info) w)))
  = cookie_teacherInfo (cookies (exec (saveTeacherInfo subj info) w)).
Proof. by rewrite saveTeacherInfo_twice. Qed.

(** ** Claims about fetching *)

Lemma thrown_by_None (r : Response) :
  thrown_by r = None ↔ ∃ data, r = ResponseOk data.
Proof.
  destruct r; simpl; split; try done; try (intros [? ?]; done). by eexists.
Qed.

(** C6: every fetchTimetable call sends one query keyed by grade, class
    number, week offset and school code; on success the snapshot is exactly
    the response; on a response that is not ok or a transport failure the
    error is thrown to the caller and the snapshot field is not modified. *)
Theorem fetchTimetable_replaces_or_keeps_snapshot
        (config : option ClassConfig) (r : Response) (w : World) :
  requests (exec (fetchTimetable config r) w)
  = (requests w ++
     [mkRequest (grade (default (classConfig (store w)) config))
                (class (default (classConfig (store w)) config))
                (week_param (isNextWeek (store w)))
                (schoolCode (default (classConfig (store w)) config))])%list ∧
  (∀ data, r = ResponseOk data →
     completion (fetchTimetable config r) w = Normal tt ∧
     timetableData (store (exec (fetchTimetable config r) w)) = Some data) ∧
  (∀ e, thrown_by r = Some e →
     completion (fetchTimetable config r) w = Abrupt e ∧
     timetableData (store (exec (fetchTimetable config r) w))
     = timetableData (store w)).
Proof.
  split; [by destruct r|]. split.
  - by intros data ->.
  - intros e He. destruct r; simpl in He; [done| |]; by inversion He.
Qed.

Lemma fetchTimetable_replaces_or_keeps_snapshot_witness :
  (ResponseOk math_lee = ResponseOk math_lee ∧
   timetableData (store (exec (fetchTimetable None (ResponseOk math_lee)) plain_world))
   = Some math_lee) ∧
  (thrown_by (ResponseStatus 404) = Some (JsError "Error: 404") ∧
   completion (fetchTimetable None (ResponseStatus 404)) plain_world
   = Abrupt (JsError "Error: 404") ∧
   timetableData (store (exec (fetchTimetable None (ResponseStatus 404)) plain_world))
   = Some math_kim).
Proof.
  split.
  - split; [reflexivity|].
    exact (proj2 (proj1 (proj2 (fetchTimetable_replaces_or_keeps_snapshot
                                  None (ResponseOk math_lee) plain_world))
                        math_lee eq_refl)).
  - assert (H : thrown_by (ResponseStatus 404) = Some (JsError "Error: 404"))
      by reflexivity.
    split; [exact H|].
    exact (proj2 (proj2 (fetchTimetable_replaces_or_keeps_snapshot
                           None (ResponseStatus 404) plain_world)) _ H).
Defined.



Lemma saveConfig_failure_frame (r : Response) (w : World) (e : Thrown) :
  thrown_by r = Some e →
  classConfig (store (exec (saveConfig r) w)) = classConfig (store w) ∧
  teacherInfo (store (exec (saveConfig r) w)) = teacherInfo (store w) ∧
  timetableData (store (exec (saveConfig r) w)) = timetableData (store w) ∧
  tempConfig (store (exec (saveConfig r) w)) = tempConfig (store w) ∧
  cookies (exec (saveConfig r) w) = cookies w.
Proof.
  intros He. unfold exec, saveConfig, mbind, Js_bind, get. simpl.
  destruct (tempConfig (store w)) as [candidate|] eqn:Ht; [|done].
  by destruct r.
Qed.

(** C4: saveConfig sends the fetch with the candidate identity before
    committing.  When the fetch succeeds the candidate becomes the active
    identity, is written to the cookie and the pending-edit buffer is
    cleared.  When it fails the active identity, both cookies (identity and
    override map) and the override map are unchanged, the buffer is kept, and
    an error message is set. *)
Theorem saveConfig_commits_only_after_fetch
        (candidate : ClassConfig) (r : Response) (w : World) :
  tempConfig (store w) = Some candidate →
  requests (exec (saveConfig r) w)
  = (requests w ++ [mkRequest (grade candidate) (class candidate) "0"
                              (schoolCode candidate)])%list ∧
  (∀ data, r = ResponseOk data →
     completion (saveConfig r) w = Normal true ∧
     classConfig (store (exec (saveConfig r) w)) = candidate ∧
     cookie_classConfig (cookies (exec (saveConfig r) w)) = Some candidate ∧
     tempConfig (store (exec (saveConfig r) w)) = None) ∧
  (∀ e, thrown_by r = Some e →
     completion (saveConfig r) w = Normal false ∧
     classConfig (store (exec (saveConfig r) w)) = classConfig (store w) ∧
     cookies (exec (saveConfig r) w) = cookies w ∧
     teacherInfo (store (exec (saveConfig r) w)) = teacherInfo (store w) ∧
     tempConfig (store (exec (saveConfig r) w)) = Some candidate ∧
     error (store (exec (saveConfig r) w)) = Some (saveErrorMessage e)).
Proof.
  intros Ht.
  unfold exec, completion, saveConfig, mbind, Js_bind, get. simpl.
  rewrite Ht. split; [by destruct r|]. split.
  - by intros data ->.
  - intros e He. destruct r; simpl in He; [done| |]; by inversion He.
Qed.

Lemma saveConfig_commits_only_after_fetch_witness :
  tempConfig (store (exec (setTempConfig other_class) plain_world))
  = Some other_class ∧
  classConfig (store (exec (saveConfig (ResponseOk math_lee))
                           (exec (setTempConfig other_class) plain_world)))
  = other_class ∧
  classConfig (store (exec (saveConfig (ResponseStatus 404))
                           (exec (setTempConfig other_class) plain_world)))
  = DEFAULT_CONFIG ∧
  error (store (exec (saveConfig (ResponseStatus 404))
                     (exec (setTempConfig other_class) plain_world)))
  = Some (saveErrorMessage (JsError "Error: 404")).
Proof.
  assert (H : tempConfig (store (exec (setTempConfig other_class) plain_world))
              = Some other_class) by reflexivity.
  split; [exact H|]. split.
  - destruct (saveConfig_commits_only_after_fetch
                other_class (ResponseOk math_lee)
                (exec (setTempConfig other_class) plain_world) H)
      as (_ & Hok & _).
    exact (proj1 (proj2 (Hok math_lee eq_refl))).
  - destruct (saveConfig_commits_only_after_fetch
                other_class (ResponseStatus 404)
                (exec (setTempConfig other_class) plain_world) H)
      as (_ & _ & Hfail).
    destruct (Hfail (JsError "Error: 404") eq_refl) as (_ & Hc & _ & _ & _ & He).
    split; [exact Hc | exact He].
Defined.

(** ** Claims about changing the week *)

Lemma changeWeek_same_week (isNext : bool) (r : Response) (w : World) :
  isNextWeek (store w) = isNext → run (changeWeek isNext r) w = (Normal tt, w).
Proof.
  intros <-. unfold run, changeWeek, mbind, Js_bind, get. simpl.
  by destruct (isNextWeek (store w)).
Qed.

Lemma changeWeek_other_week (isNext : bool) (r : Response) (w : World) :
  isNextWeek (store w) ≠ isNext →
  requests (exec (changeWeek isNext r) w)
  = (requests w ++ [mkRequest (grade (classConfig (store w)))
                              (class (classConfig (store w)))
                              (week_param isNext)
                              (schoolCode (classConfig (store w)))])%list ∧
  completion (changeWeek isNext r) w = Normal tt ∧
  isWeekChangeLoading (store (exec (changeWeek isNext r) w)) = false ∧
  match r with
  | ResponseOk data =>
      isNextWeek (store (exec (changeWeek isNext r) w)) = isNext ∧
      timetableData (store (exec (changeWeek isNext r) w)) = Some data ∧
      error (store (exec (changeWeek isNext r) w)) = None
  | _ =>
      isNextWeek (store (exec (changeWeek isNext r) w)) = isNextWeek (store w) ∧
      timetableData (store (exec (changeWeek isNext r) w)) = timetableData (store w) ∧
      error (store (exec (changeWeek isNext r) w))
      = loadErrorMessage <$> thrown_by r
  end.
Proof.
  intros Hne.
  unfold exec, completion, changeWeek, mbind, Js_bind, get. simpl.
  destruct isNext, (isNextWeek (store w)) eqn:Hn; simpl; try done;
    by destruct r.
Qed.

(** C5, as the code has it: changeWeek is a no-op (no fetch, no state change)
    when the store is already on the requested week; otherwise it sends one
    fetch for the requested week and moves the is-next-week flag only when
    that fetch succeeds.  Two consecutive changeWeek(true) calls therefore
    send at most one fetch when the store was already on next week or the
    first call's fetch succeeded, and never more than two. *)
Theorem changeWeek_fetches_only_off_week (r1 r2 : Response) (w : World) :
  (∀ isNext, isNextWeek (store w) = isNext →
     run (changeWeek isNext r1) w = (Normal tt, w)) ∧
  (∀ isNext, isNextWeek (store w) ≠ isNext →
     requests (exec (changeWeek isNext r1) w)
     = (requests w ++ [mkRequest (grade (classConfig (store w)))
                                 (class (classConfig (store w)))
                                 (week_param isNext)
                                 (schoolCode (classConfig (store w)))])%list ∧
     isNextWeek (store (exec (changeWeek isNext r1) w))
     = match thrown_by r1 with
       | Some _ => isNextWeek (store w)
       | None => isNext
       end) ∧
  (isNextWeek (store w) = true ∨ thrown_by r1 = None →
     (length (requests (exec (changeWeek true r2) (exec (changeWeek true r1) w)))
      ≤ length (requests w) + 1)%nat) ∧
  (length (requests (exec (changeWeek true r2) (exec (changeWeek true r1) w)))
   ≤ length (requests w) + 2)%nat.
Proof.
  split; [intros isNext; apply changeWeek_same_week|].
  split.
  { intros isNext Hne.
    destruct (changeWeek_other_week isNext r1 w Hne) as (Hreq & _ & _ & Hr).
    split; [done|]. by destruct r1; destruct Hr as (? & _). }
  assert (Hstep : ∀ r w0,
            (length (requests (exec (changeWeek true r) w0))
             ≤ length (requests w0) + 1)%nat).
  { intros r w0. destruct (decide (isNextWeek (store w0) = true)) as [Hw|Hw].
    - unfold exec. pose proof (changeWeek_same_week true r w0 Hw) as H.
      unfold run in H. rewrite H. simpl. lia.
    - destruct (changeWeek_other_week true r w0 Hw) as (-> & _).
      rewrite length_app. simpl. lia. }
  split.
  - intros Hcase.
    assert (Hnext : isNextWeek (store (exec (changeWeek true r1) w)) = true).
    { destruct (decide (isNextWeek (store w) = true)) as [Hw|Hw].
      - unfold exec. pose proof (changeWeek_same_week true r1 w Hw) as H.
        unfold run in H. by rewrite H.
      - destruct Hcase as [?|Hok]; [done|].
        destruct (changeWeek_other_week true r1 w Hw) as (_ & _ & _ & Hr).
        destruct r1; simpl in Hok; try done. by destruct Hr. }
    unfold exec at 1.
    pose proof (changeWeek_same_week true r2 _ Hnext) as H.
    unfold run in H. rewrite H. simpl. apply Hstep.
  - pose proof (Hstep r2 (exec (changeWeek true r1) w)).
    pose proof (Hstep r1 w). lia.
Qed.

Lemma changeWeek_fetches_only_off_week_witness :
  (isNextWeek (store plain_world) ≠ true ∧
   isNextWeek (store (exec (changeWeek true (ResponseOk math_lee)) plain_world))
   = true) ∧
  (thrown_by (ResponseOk math_lee) = None ∧
   (length (requests (exec (changeWeek true (ResponseOk math_kim))
                           (exec (changeWeek true (ResponseOk math_lee)) plain_world)))
    ≤ length (requests plain_world) + 1)%nat).
Proof.
  split.
  - assert (H : isNextWeek (store plain_world) ≠ true) by (simpl; discriminate).
    split; [exact H|].
    exact (proj2 (proj1 (proj2 (changeWeek_fetches_only_off_week
                                  (ResponseOk math_lee) (ResponseOk math_kim)
                                  plain_world)) true H)).
  - assert (H : thrown_by (ResponseOk math_lee) = None) by reflexivity.
    split; [exact H|].
    exact (proj1 (proj2 (proj2 (changeWeek_fetches_only_off_week
                                  (ResponseOk math_lee) (ResponseOk math_kim)
                                  plain_world))) (or_intror H)).
Defined.

(** C5 fails as stated: when the first changeWeek(true) gets a 500 the flag
    stays on the current week, and the second changeWeek(true) fetches
    again: two fetches are sent. *)
Lemma changeWeek_twice_after_failure_fetches_twice :
  isNextWeek (store plain_world) = false ∧
  length (requests (exec (changeWeek true (ResponseOk math_lee))
                         (exec (changeWeek true (ResponseStatus 500)) plain_world)))
  = (length (requests plain_world) + 2)%nat.
Proof. split; reflexivity. Qed.

(** ** Claims about error handling *)

(** C8: for every response (success, a status that is not ok, a transport
    failure), initializeStore and changeWeek complete normally, fetchTimetable
    throws exactly when the fetch failed (its re-throw for saveConfig), a
    failed fetch leaves the store-level error message built from the thrown
    value, and the loading flag of the action (isLoading for initializeStore
    and fetchTimetable, isWeekChangeLoading for a changeWeek that fetches) is
    false when the action completes. *)
Theorem fetch_errors_become_messages_and_flags_clear (r : Response) (w : World) :
  (completion (initializeStore r) w = Normal tt ∧
   isLoading (store (exec (initializeStore r) w)) = false ∧
   error (store (exec (initializeStore r) w)) = loadErrorMessage <$> thrown_by r) ∧
  (∀ isNext,
     completion (changeWeek isNext r) w = Normal tt ∧
     (isWeekChangeLoading (store w) = false →
      isWeekChangeLoading (store (exec (changeWeek isNext r) w)) = false) ∧
     (isNextWeek (store w) ≠ isNext →
      isWeekChangeLoading (store (exec (changeWeek isNext r) w)) = false ∧
      ∀ e, thrown_by r = Some e →
           error (store (exec (changeWeek isNext r) w)) = Some (loadErrorMessage e))) ∧
  (∀ config,
     isLoading (store (exec (fetchTimetable config r) w)) = false ∧
     error (store (exec (fetchTimetable config r) w)) = loadErrorMessage <$> thrown_by r ∧
     completion (fetchTimetable config r) w
     = match thrown_by r with
       | Some e => Abrupt e
       | None => Normal tt
       end).
Proof.
  split; [by destruct r|]. split.
  - intros isNext.
    destruct (decide (isNextWeek (store w) = isNext)) as [Heq|Hne].
    + pose proof (changeWeek_same_week isNext r w Heq) as H.
      unfold run in H. unfold completion, exec. rewrite H. simpl.
      split; [done|]. split; [done|]. intros ?; done.
    + destruct (changeWeek_other_week isNext r w Hne) as (_ & Hc & Hflag & Hr).
      split; [done|]. split; [done|]. intros _. split; [done|].
      intros e He. destruct r; simpl in He; [done| |];
        destruct Hr as (_ & _ & ->); simpl; by inversion He.
  - intros config. by destruct r.
Qed.

Lemma fetch_errors_become_messages_and_flags_clear_witness :
  isNextWeek (store plain_world) ≠ true ∧
  thrown_by (ResponseStatus 503) = Some (JsError "Error: 503") ∧
  isWeekChangeLoading (store (exec (changeWeek true (ResponseStatus 503)) plain_world))
  = false ∧
  error (store (exec (changeWeek true (ResponseStatus 503)) plain_world))
  = Some (loadErrorMessage (JsError "Error: 503")).
Proof.
  assert (H1 : isNextWeek (store plain_world) ≠ true) by (simpl; discriminate).
  assert (H2 : thrown_by (ResponseStatus 503) = Some (JsError "Error: 503"))
    by reflexivity.
  split; [exact H1|]. split; [exact H2|].
  destruct (proj1 (proj2 (fetch_errors_become_messages_and_flags_clear
                            (ResponseStatus 503) plain_world)) true)
    as (_ & _ & Hfetch).
  destruct (Hfetch H1) as (Hflag & Herr).
  split; [exact Hflag | exact (Herr _ H2)].
Defined.

(** ** The invariant of the override map *)







(** ** The save handler of the teacher-info editor *)

Section HandleSave.
Import TeacherInfoPopup.
Variables (p : Popup) (w : World).

(** A name of at most four code units reaches the callback, and the popup
    closes with its message cleared. *)
Lemma handleSave_short (onSave : string → Js unit) :
  (js_length (teacherInfo p) ≤ 4)%nat →
  run (handleSave onSave p) w =
  run (onSave (teacherInfo p);; mret (mkPopup (teacherInfo p) false "")) w.
Proof.
  intros Hlen. unfold handleSave.
  destruct (Nat.ltb_spec 4 (js_length (teacherInfo p))); [lia | done].
Qed.

(** A longer name stops in the handler, whatever the callback is. *)
Lemma handleSave_long (onSave : string → Js unit) :
  (4 < js_length (teacherInfo p))%nat →
  run (handleSave onSave p) w =
  (Normal (mkPopup (teacherInfo p) (isOpen p) tooLongMessage), w).
Proof.
  intros Hlen. unfold handleSave.
  destruct (Nat.ltb_spec 4 (js_length (teacherInfo p))); [done | lia].
Qed.

End HandleSave.

(** C9: confirming a save in the teacher-info editor calls saveTeacherInfo
    with the entered name if and only if the name is at most 4 characters
    (UTF-16 code units, as [.length] counts them) long.  A longer name is
    rejected with the validation message, the popup stays as it was, and the
    world (store, cookies, requests) is untouched whatever callback is
    mounted; a callback that throws is reached exactly by the short names. *)
Theorem handleSave_calls_store_iff_short
        (subj : string) (p : TeacherInfoPopup.Popup) (w : World) :
  ((TeacherInfoPopup.js_length (TeacherInfoPopup.teacherInfo p) ≤ 4)%nat →
   run (TeacherInfoPopup.confirm subj p) w
   = (Normal (TeacherInfoPopup.mkPopup (TeacherInfoPopup.teacherInfo p) false ""),
      exec (saveTeacherInfo subj (TeacherInfoPopup.teacherInfo p)) w)) ∧
  ((4 < TeacherInfoPopup.js_length (TeacherInfoPopup.teacherInfo p))%nat →
   ∀ onSave,
     run (TeacherInfoPopup.handleSave onSave p) w
     = (Normal (TeacherInfoPopup.mkPopup (TeacherInfoPopup.teacherInfo p)
                                         (TeacherInfoPopup.isOpen p)
                                         TeacherInfoPopup.tooLongMessage), w)) ∧
  (∀ e, completion (TeacherInfoPopup.handleSave (λ _, throw e) p) w = Abrupt e
        ↔ (TeacherInfoPopup.js_length (TeacherInfoPopup.teacherInfo p) ≤ 4)%nat).
Proof.
  split; [|split].
  - intros Hlen. unfold TeacherInfoPopup.confirm.
    rewrite handleSave_short by done.
    rewrite run_bind. unfold exec.
    destruct (saveTeacherInfo_cases subj (TeacherInfoPopup.teacherInfo p) w)
      as [[newInfo H]|H]; unfold run in *; by rewrite H.
  - intros Hlen onSave. by apply handleSave_long.
  - intros e. unfold completion.
    destruct (Nat.le_gt_cases
                (TeacherInfoPopup.js_length (TeacherInfoPopup.teacherInfo p)) 4)
      as [Hlen|Hlen].
    + pose proof (handleSave_short p w (λ _, throw e) Hlen) as H.
      unfold run in H. by rewrite H.
    + pose proof (handleSave_long p w (λ _, throw e) Hlen) as H.
      unfold run in H. rewrite H. simpl. split; [done | lia].
Qed.

Lemma handleSave_calls_store_iff_short_witness :
  ((TeacherInfoPopup.js_length
      (TeacherInfoPopup.teacherInfo (TeacherInfoPopup.mkPopup "김선생님" true "")) ≤ 4)%nat ∧
   getTeacherInfo "Math"
     (store (snd (run (TeacherInfoPopup.confirm "Math"
                         (TeacherInfoPopup.mkPopup "김선생님" true "")) plain_world)))
   = Some (Stored "김선생님")) ∧
  ((4 < TeacherInfoPopup.js_length
          (TeacherInfoPopup.teacherInfo (TeacherInfoPopup.mkPopup "Mr. Kim" true "")))%nat ∧
   run (TeacherInfoPopup.confirm "Math"
          (TeacherInfoPopup.mkPopup "Mr. Kim" true "")) plain_world
   = (Normal (TeacherInfoPopup.mkPopup "Mr. Kim" true TeacherInfoPopup.tooLongMessage),
      plain_world)).
Proof.
  split.
  - assert (H : (TeacherInfoPopup.js_length
                   (TeacherInfoPopup.teacherInfo
                      (TeacherInfoPopup.mkPopup "김선생님" true "")) ≤ 4)%nat)
      by (vm_compute; lia).
    split; [exact H|].
    rewrite (proj1 (handleSave_calls_store_iff_short
                      "Math" (TeacherInfoPopup.mkPopup "김선생님" true "") plain_world) H).
    reflexivity.
  - assert (H : (4 < TeacherInfoPopup.js_length
                       (TeacherInfoPopup.teacherInfo
                          (TeacherInfoPopup.mkPopup "Mr. Kim" true "")))%nat)
      by (vm_compute; lia).
    split; [exact H|].
    exact (proj1 (proj2 (handleSave_calls_store_iff_short
                           "Math" (TeacherInfoPopup.mkPopup "Mr. Kim" true "")
                           plain_world)) H _).
Defined.

(** ** Further properties of the store *)

(** *** What each action leaves alone *)

Lemma initializeStore_fields (r : Response) (w : World) :
  classConfig (store (exec (initializeStore r) w))
  = default DEFAULT_CONFIG (cookie_classConfig (cookies w)) ∧
  teacherInfo (store (exec (initializeStore r) w))
  = default ∅ (cookie_teacherInfo (cookies w)) ∧
  tempConfig (store (exec (initializeStore r) w)) = None ∧
  cookies (exec (initializeStore r) w) = cookies w ∧
  isLoading (store (exec (initializeStore r) w)) = false ∧
  isWeekChangeLoading (store (exec (initializeStore r) w))
  = isWeekChangeLoading (store w).
Proof. by destruct r. Qed.

Lemma fetchTimetable_fields (config : option ClassConfig) (r : Response) (w : World) :
  classConfig (store (exec (fetchTimetable config r) w)) = classConfig (store w) ∧
  teacherInfo (store (exec (fetchTimetable config r) w)) = teacherInfo (store w) ∧
  tempConfig (store (exec (fetchTimetable config r) w)) = tempConfig (store w) ∧
  cookies (exec (fetchTimetable config r) w) = cookies w ∧
  isLoading (store (exec (fetchTimetable config r) w)) = false ∧
  isWeekChangeLoading (store (exec (fetchTimetable config r) w))
  = isWeekChangeLoading (store w).
Proof. by destruct r. Qed.

Lemma changeWeek_fields (isNext : bool) (r : Response) (w : World) :
  classConfig (store (exec (changeWeek isNext r) w)) = classConfig (store w) ∧
  teacherInfo (store (exec (changeWeek isNext r) w)) = teacherInfo (store w) ∧
  tempConfig (store (exec (changeWeek isNext r) w)) = tempConfig (store w) ∧
  cookies (exec (changeWeek isNext r) w) = cookies w ∧
  isLoading (store (exec (changeWeek isNext r) w)) = isLoading (store w) ∧
  (isWeekChangeLoading (store w) = false →
   isWeekChangeLoading (store (exec (changeWeek isNext r) w)) = false).
Proof.
  unfold exec, changeWeek, mbind, Js_bind, get. simpl.
  destruct isNext, (isNextWeek (store w)) eqn:Hn; simpl; try done;
    by destruct r.
Qed.

Lemma saveConfig_fields (r : Response) (w : World) :
  teacherInfo (store (exec (saveConfig r) w)) = teacherInfo (store w) ∧
  cookie_teacherInfo (cookies (exec (saveConfig r) w))
  = cookie_teacherInfo (cookies w) ∧
  (isLoading (store w) = false → isLoading (store (exec (saveConfig r) w)) = false) ∧
  (isWeekChangeLoading (store w) = false →
   isWeekChangeLoading (store (exec (saveConfig r) w)) = false) ∧
  ((classConfig (store (exec (saveConfig r) w)) = classConfig (store w) ∧
    cookie_classConfig (cookies (exec (saveConfig r) w))
    = cookie_classConfig (cookies w)) ∨
   (∃ candidate data,
      tempConfig (store w) = Some candidate ∧ r = ResponseOk data ∧
      classConfig (store (exec (saveConfig r) w)) = candidate ∧
      cookie_classConfig (cookies (exec (saveConfig r) w)) = Some candidate)).
Proof.
  unfold exec, saveConfig, mbind, Js_bind, get. simpl.
  destruct (tempConfig (store w)) as [candidate|] eqn:Ht.
  - destruct r as [data| |]; simpl; repeat split; try done;
      try (by left); right; by exists candidate, data.
  - simpl. repeat split; try done. by left.
Qed.

Lemma saveTeacherInfo_fields (subj info : string) (w : World) :
  isLoading (store (exec (saveTeacherInfo subj info) w)) = isLoading (store w) ∧
  isWeekChangeLoading (store (exec (saveTeacherInfo subj info) w))
  = isWeekChangeLoading (store w) ∧
  ((teacherInfo (store (exec (saveTeacherInfo subj info) w)) = teacherInfo (store w) ∧
    cookie_teacherInfo (cookies (exec (saveTeacherInfo subj info) w))
    = cookie_teacherInfo (cookies w)) ∨
   cookie_teacherInfo (cookies (exec (saveTeacherInfo subj info) w))
   = Some (teacherInfo (store (exec (saveTeacherInfo subj info) w)))).
Proof.
  unfold exec.
  destruct (saveTeacherInfo_cases subj info w) as [[newInfo H]|H];
    unfold run in H; rewrite H; simpl; repeat split; try done;
    [by right | by left].
Qed.

(** *** Persisted state *)

Lemma perform_Persisted (a : Action) (w : World) :
  Persisted w → Persisted (perform a w).
Proof.
  intros [Hc Ht]. unfold Persisted. destruct a; simpl.
  - destruct (initializeStore_fields r w) as (-> & -> & _ & -> & _). done.
  - done.
  - done.
  - done.
  - destruct (changeWeek_fields isNext r w) as (-> & -> & _ & -> & _). done.
  - destruct (saveConfig_fields r w) as (-> & -> & _ & _ & Hcfg).
    split; [|done].
    destruct Hcfg as [[-> ->]|(candidate & data & _ & _ & -> & ->)]; done.
  - destruct (saveTeacherInfo_frame subj info w) as (_ & -> & _ & _ & _ & ->).
    split; [done|].
    destruct (saveTeacherInfo_fields subj info w) as (_ & _ & [[-> ->]| ->]); done.
  - destruct (fetchTimetable_fields config r w) as (-> & -> & _ & -> & _). done.
Qed.

Lemma perform_all_Persisted (l : list Action) (w : World) :
  Persisted w → Persisted (perform_all l w).
Proof.
  revert w. induction l as [|a l IH]; intros w Hw; simpl; [done|].
  apply IH. by apply perform_Persisted.
Qed.

(** X1: when the cookies agree with the store, they still agree after any
    sequence of actions, whatever the responses: reloading with
    initializeStore brings back the class identity and the override map the
    store held, and an initializeStore anywhere in the sequence makes the
    cookies agree whatever the state before. *)
Theorem persisted_state_survives_reload (l : list Action) (r : Response) (w : World) :
  (Persisted w →
   classConfig (store (exec (initializeStore r) (perform_all l w)))
   = classConfig (store (perform_all l w)) ∧
   teacherInfo (store (exec (initializeStore r) (perform_all l w)))
   = teacherInfo (store (perform_all l w))) ∧
  Persisted (perform_all l (exec (initializeStore r) w)).
Proof.
  split.
  - intros Hw.
    destruct (perform_all_Persisted l w Hw) as [Hc Ht].
    destruct (initializeStore_fields r (perform_all l w)) as (-> & -> & _).
    done.
  - apply perform_all_Persisted.
    destruct (initializeStore_fields r w) as (Hc & Ht & _ & Hk & _).
    unfold Persisted. by rewrite Hc, Ht, Hk.
Qed.

Lemma persisted_state_survives_reload_witness :
  Persisted initial_world ∧
  classConfig (store (exec (initializeStore (ResponseStatus 500))
                           (perform_all [SetTempConfig other_class;
                                         SaveConfig (ResponseOk math_lee);
                                         SaveTeacherInfo "Math" "Kim"]
                                        initial_world)))
  = other_class ∧
  teacherInfo (store (exec (initializeStore (ResponseStatus 500))
                           (perform_all [SetTempConfig other_class;
                                         SaveConfig (ResponseOk math_lee);
                                         SaveTeacherInfo "Math" "Kim"]
                                        initial_world)))
  = {[ configKey other_class := {[ "Math" := "Kim" ]} ]}.
Proof.
  assert (H : Persisted initial_world) by (split; reflexivity).
  split; [exact H|].
  destruct (proj1 (persisted_state_survives_reload
                     [SetTempConfig other_class;
                      SaveConfig (ResponseOk math_lee);
                      SaveTeacherInfo "Math" "Kim"]
                     (ResponseStatus 500) initial_world) H) as [Hc Ht].
  split; [rewrite Hc | rewrite Ht]; by vm_compute.
Defined.

(** *** Loading flags and completions *)

Lemma perform_flags (a : Action) (w : World) :
  (isLoading (store w) = false → isLoading (store (perform a w)) = false) ∧
  (isWeekChangeLoading (store w) = false →
   isWeekChangeLoading (store (perform a w)) = false).
Proof.
  destruct a; simpl.
  - destruct (initializeStore_fields r w) as (_ & _ & _ & _ & -> & ->). done.
  - done.
  - done.
  - done.
  - destruct (changeWeek_fields isNext r w) as (_ & _ & _ & _ & -> & H). done.
  - destruct (saveConfig_fields r w) as (_ & _ & H1 & H2 & _). done.
  - destruct (saveTeacherInfo_fields subj info w) as (-> & -> & _). done.
  - destruct (fetchTimetable_fields config r w) as (_ & _ & _ & _ & -> & ->). done.
Qed.

(** X2: no action returns with a loading flag it found down left up: after
    any sequence of completed actions, with any responses, isLoading is false
    if it was false before and isWeekChangeLoading is false if it was false
    before; from the state the store is created with, isWeekChangeLoading is
    false after every sequence. *)
Theorem loading_flags_stay_down (l : list Action) (w : World) :
  (isLoading (store w) = false → isLoading (store (perform_all l w)) = false) ∧
  (isWeekChangeLoading (store w) = false →
   isWeekChangeLoading (store (perform_all l w)) = false) ∧
  isWeekChangeLoading (store (perform_all l initial_world)) = false.
Proof.
  assert (H : ∀ w0,
            (isLoading (store w0) = false →
             isLoading (store (perform_all l w0)) = false) ∧
            (isWeekChangeLoading (store w0) = false →
             isWeekChangeLoading (store (perform_all l w0)) = false)).
  { induction l as [|a l IH]; intros w0; simpl; [done|].
    destruct (perform_flags a w0) as [H1 H2].
    destruct (IH (perform a w0)) as [H3 H4]. split; auto. }
  destruct (H w) as [H1 H2]. split; [done|]. split; [done|].
  by apply H.
Qed.

Lemma loading_flags_stay_down_witness :
  isLoading (store plain_world) = false ∧
  isWeekChangeLoading (store plain_world) = false ∧
  isLoading (store (perform_all [ChangeWeek true (ResponseStatus 500);
                                 SetTempConfig other_class;
                                 SaveConfig (ResponseRejected JsOther)]
                                plain_world)) = false ∧
  isWeekChangeLoading (store (perform_all [ChangeWeek true (ResponseStatus 500);
                                           SetTempConfig other_class;
                                           SaveConfig (ResponseRejected JsOther)]
                                          plain_world)) = false.
Proof.
  assert (H1 : isLoading (store plain_world) = false) by reflexivity.
  assert (H2 : isWeekChangeLoading (store plain_world) = false) by reflexivity.
  split; [exact H1|]. split; [exact H2|].
  destruct (loading_flags_stay_down
              [ChangeWeek true (ResponseStatus 500);
               SetTempConfig other_class;
               SaveConfig (ResponseRejected JsOther)] plain_world)
    as (Hl & Hw & _).
  split; [exact (Hl H1) | exact (Hw H2)].
Defined.

(** X3: the override map, in the store and in the cookie, is changed by
    saveTeacherInfo and initializeStore only, and the class identity, in the
    store and in the cookie, by saveConfig and initializeStore only: every
    other action leaves them as they were, whatever its response. *)
Theorem overrides_and_identity_have_their_own_writers (a : Action) (w : World) :
  ((∀ subj info, a ≠ SaveTeacherInfo subj info) → (∀ r, a ≠ InitializeStore r) →
   teacherInfo (store (perform a w)) = teacherInfo (store w) ∧
   cookie_teacherInfo (cookies (perform a w)) = cookie_teacherInfo (cookies w)) ∧
  ((∀ r, a ≠ SaveConfig r) → (∀ r, a ≠ InitializeStore r) →
   classConfig (store (perform a w)) = classConfig (store w) ∧
   cookie_classConfig (cookies (perform a w)) = cookie_classConfig (cookies w)).
Proof.
  split.
  - intros Hs Hi. destruct a; simpl; try done.
    + by destruct (Hi r).
    + destruct (changeWeek_fields isNext r w) as (_ & -> & _ & -> & _). done.
    + destruct (saveConfig_fields r w) as (-> & -> & _). done.
    + by destruct (Hs subj info).
    + destruct (fetchTimetable_fields config r w) as (_ & -> & _ & -> & _). done.
  - intros Hs Hi. destruct a; simpl; try done.
    + by destruct (Hi r).
    + destruct (changeWeek_fields isNext r w) as (-> & _ & _ & -> & _). done.
    + by destruct (Hs r).
    + destruct (saveTeacherInfo_frame subj info w) as (_ & -> & _ & _ & _ & ->). done.
    + destruct (fetchTimetable_fields config r w) as (-> & _ & _ & -> & _). done.
Qed.

Lemma overrides_and_identity_have_their_own_writers_witness :
  ((∀ subj info, SaveConfig (ResponseOk math_lee) ≠ SaveTeacherInfo subj info) ∧
   (∀ r, SaveConfig (ResponseOk math_lee) ≠ InitializeStore r) ∧
   teacherInfo (store (perform (SaveConfig (ResponseOk math_lee))
                               (exec (setTempConfig other_class) lee_world)))
   = teacherInfo (store (exec (setTempConfig other_class) lee_world))) ∧
  ((∀ r, SaveTeacherInfo "Math" "Choi" ≠ SaveConfig r) ∧
   (∀ r, SaveTeacherInfo "Math" "Choi" ≠ InitializeStore r) ∧
   classConfig (store (perform (SaveTeacherInfo "Math" "Choi") lee_world))
   = classConfig (store lee_world)).
Proof.
  split.
  - assert (H1 : ∀ subj info,
              SaveConfig (ResponseOk math_lee) ≠ SaveTeacherInfo subj info)
      by (intros; discriminate).
    assert (H2 : ∀ r, SaveConfig (ResponseOk math_lee) ≠ InitializeStore r)
      by (intros; discriminate).
    split; [exact H1|]. split; [exact H2|].
    exact (proj1 (proj1 (overrides_and_identity_have_their_own_writers
                           (SaveConfig (ResponseOk math_lee))
                           (exec (setTempConfig other_class) lee_world)) H1 H2)).
  - assert (H1 : ∀ r, SaveTeacherInfo "Math" "Choi" ≠ SaveConfig r)
      by (intros; discriminate).
    assert (H2 : ∀ r, SaveTeacherInfo "Math" "Choi" ≠ InitializeStore r)
      by (intros; discriminate).
    split; [exact H1|]. split; [exact H2|].
    exact (proj1 (proj2 (overrides_and_identity_have_their_own_writers
                           (SaveTeacherInfo "Math" "Choi") lee_world) H1 H2)).
Defined.

(** X4: the snapshot is replaced by a successful response only.  After any
    action the snapshot is the one before, unless the action was given a
    successful response, and then it is the one before or exactly the data of
    that response. *)
Theorem snapshot_changes_only_on_success (a : Action) (w : World) :
  timetableData (store (perform a w)) = timetableData (store w) ∨
  ∃ data, response_of a = Some (ResponseOk data) ∧
          timetableData (store (perform a w)) = Some data.
Proof.
  destruct a; simpl.
  - destruct r as [data| |]; [right; by exists data | by left | by left].
  - by left.
  - by left.
  - by left.
  - unfold exec, changeWeek, mbind, Js_bind, get. simpl.
    destruct isNext, (isNextWeek (store w)) eqn:Hn; simpl; try (by left);
      (destruct r as [data| |]; [right; by exists data | by left | by left]).
  - unfold exec, saveConfig, mbind, Js_bind, get. simpl.
    destruct (tempConfig (store w)) as [candidate|]; [|by left].
    destruct r as [data| |]; [right; by exists data | by left | by left].
  - left. by destruct (saveTeacherInfo_frame subj info w) as (_ & _ & -> & _).
  - destruct r as [data| |]; [right; by exists data | by left | by left].
Qed.

(** *** Saving the class identity *)

Lemma saveConfig_no_candidate (r : Response) (w : World) :
  tempConfig (store w) = None → run (saveConfig r) w = (Normal false, w).
Proof.
  intros Ht. unfold run, saveConfig, mbind, Js_bind, get. simpl. by rewrite Ht.
Qed.

Lemma saveConfig_with_candidate (candidate : ClassConfig) (r : Response) (w : World) :
  tempConfig (store w) = Some candidate →
  requests (exec (saveConfig r) w)
  = (requests w ++ [mkRequest (grade candidate) (class candidate) "0"
                              (schoolCode candidate)])%list ∧
  completion (saveConfig r) w = Normal (bool_decide (thrown_by r = None)) ∧
  isLoading (store (exec (saveConfig r) w)) = false ∧
  isWeekChangeLoading (store (exec (saveConfig r) w)) = false ∧
  isNextWeek (store (exec (saveConfig r) w)) = false ∧
  (∀ data, r = ResponseOk data →
     classConfig (store (exec (saveConfig r) w)) = candidate ∧
     cookie_classConfig (cookies (exec (saveConfig r) w)) = Some candidate ∧
     tempConfig (store (exec (saveConfig r) w)) = None ∧
     timetableData (store (exec (saveConfig r) w)) = Some data ∧
     error (store (exec (saveConfig r) w)) = None ∧
     showConfig (store (exec (saveConfig r) w)) = false) ∧
  (∀ e, thrown_by r = Some e →
     showConfig (store (exec (saveConfig r) w)) = showConfig (store w)).
Proof.
  intros Ht.
  unfold exec, completion, saveConfig, mbind, Js_bind, get. simpl.
  rewrite Ht.
  destruct r as [data|status|e0]; simpl; split_and!; try done;
    try (by intros ? [= <-]); by intros ? [=].
Qed.

(** X5: saveConfig never throws.  With a candidate in the buffer it returns
    true exactly when the fetch succeeded, and in both cases ends with both
    loading flags false and the store on the current week (isNextWeek false);
    after a success the snapshot is the response, the error is cleared and
    the dialog is closed; after a failure the snapshot and the dialog flag are
    as before. *)
Theorem saveConfig_outcome (candidate : ClassConfig) (r : Response) (w : World) :
  tempConfig (store w) = Some candidate →
  completion (saveConfig r) w = Normal (bool_decide (thrown_by r = None)) ∧
  isLoading (store (exec (saveConfig r) w)) = false ∧
  isWeekChangeLoading (store (exec (saveConfig r) w)) = false ∧
  isNextWeek (store (exec (saveConfig r) w)) = false ∧
  (∀ data, r = ResponseOk data →
     timetableData (store (exec (saveConfig r) w)) = Some data ∧
     error (store (exec (saveConfig r) w)) = None ∧
     showConfig (store (exec (saveConfig r) w)) = false) ∧
  (∀ e, thrown_by r = Some e →
     timetableData (store (exec (saveConfig r) w)) = timetableData (store w) ∧
     showConfig (store (exec (saveConfig r) w)) = showConfig (store w)).
Proof.
  intros Ht.
  destruct (saveConfig_with_candidate candidate r w Ht)
    as (_ & Hc & Hl & Hf & Hn & Hok & Hfail).
  split_and!; try done.
  - intros data Hr. by destruct (Hok data Hr) as (_ & _ & _ & ? & ? & ?).
  - intros e He. split; [|by apply (Hfail e)].
    by destruct (saveConfig_failure_frame r w e He) as (_ & _ & -> & _).
Qed.

Lemma saveConfig_outcome_witness :
  tempConfig (store (exec (setTempConfig other_class) plain_world))
  = Some other_class ∧
  completion (saveConfig (ResponseRejected JsOther))
             (exec (setTempConfig other_class) plain_world) = Normal false ∧
  isWeekChangeLoading
    (store (exec (saveConfig (ResponseRejected JsOther))
                 (exec (setTempConfig other_class) plain_world))) = false.
Proof.
  assert (H : tempConfig (store (exec (setTempConfig other_class) plain_world))
              = Some other_class) by reflexivity.
  split; [exact H|].
  destruct (saveConfig_outcome other_class (ResponseRejected JsOther)
              (exec (setTempConfig other_class) plain_world) H)
    as (Hc & _ & Hf & _).
  split; [exact Hc | exact Hf].
Defined.

(** X6: without a candidate saveConfig does nothing: it returns false, sends
    no request and changes neither store nor cookies.  That is the case after
    the dialog was closed, after resetTempConfig, and after a saveConfig that
    succeeded, so a second confirm of the same edit is never sent. *)
Theorem saveConfig_without_candidate_is_noop (r r' : Response) (w : World) :
  (tempConfig (store w) = None → run (saveConfig r) w = (Normal false, w)) ∧
  run (saveConfig r) (exec (setShowConfig false) w)
  = (Normal false, exec (setShowConfig false) w) ∧
  run (saveConfig r) (exec resetTempConfig w)
  = (Normal false, exec resetTempConfig w) ∧
  (∀ candidate data,
     tempConfig (store w) = Some candidate → r' = ResponseOk data →
     run (saveConfig r) (exec (saveConfig r') w)
     = (Normal false, exec (saveConfig r') w)).
Proof.
  split; [apply saveConfig_no_candidate|].
  split; [by apply saveConfig_no_candidate|].
  split; [by apply saveConfig_no_candidate|].
  intros candidate data Ht ->. apply saveConfig_no_candidate.
  destruct (saveConfig_with_candidate candidate (ResponseOk data) w Ht)
    as (_ & _ & _ & _ & _ & Hok & _).
  by destruct (Hok data eq_refl) as (_ & _ & ? & _).
Qed.

Lemma saveConfig_without_candidate_is_noop_witness :
  (tempConfig (store plain_world) = None ∧
   run (saveConfig (ResponseOk math_lee)) plain_world = (Normal false, plain_world)) ∧
  (tempConfig (store (exec (setTempConfig other_class) plain_world))
   = Some other_class ∧
   requests (exec (saveConfig (ResponseOk math_kim))
                  (exec (saveConfig (ResponseOk math_lee))
                        (exec (setTempConfig other_class) plain_world)))
   = [mkRequest "2" "1" "0" "7081492"]).
Proof.
  split.
  - assert (H : tempConfig (store plain_world) = None) by reflexivity.
    split; [exact H|].
    exact (proj1 (saveConfig_without_candidate_is_noop
                    (ResponseOk math_lee) (ResponseOk math_lee) plain_world) H).
  - assert (H : tempConfig (store (exec (setTempConfig other_class) plain_world))
                = Some other_class) by reflexivity.
    split; [exact H|].
    pose proof (proj2 (proj2 (proj2 (saveConfig_without_candidate_is_noop
                  (ResponseOk math_kim) (ResponseOk math_lee)
                  (exec (setTempConfig other_class) plain_world))))
                other_class math_lee H eq_refl) as Hrun.
    unfold exec at 1. unfold run in Hrun. rewrite Hrun. reflexivity.
Defined.

(** X7: a failed saveConfig keeps the candidate, so confirming again retries
    it: the second call sends the same query once more, and when that fetch
    succeeds the candidate is committed as by a first successful save. *)
Theorem saveConfig_retry_after_failure
        (candidate : ClassConfig) (r1 r2 : Response) (e : Thrown) (w : World) :
  tempConfig (store w) = Some candidate →
  thrown_by r1 = Some e →
  requests (exec (saveConfig r2) (exec (saveConfig r1) w))
  = (requests w ++
     [mkRequest (grade candidate) (class candidate) "0" (schoolCode candidate);
      mkRequest (grade candidate) (class candidate) "0" (schoolCode candidate)])%list ∧
  (∀ data, r2 = ResponseOk data →
     completion (saveConfig r2) (exec (saveConfig r1) w) = Normal true ∧
     classConfig (store (exec (saveConfig r2) (exec (saveConfig r1) w))) = candidate ∧
     cookie_classConfig (cookies (exec (saveConfig r2) (exec (saveConfig r1) w)))
     = Some candidate ∧
     tempConfig (store (exec (saveConfig r2) (exec (saveConfig r1) w))) = None ∧
     timetableData (store (exec (saveConfig r2) (exec (saveConfig r1) w)))
     = Some data ∧
     error (store (exec (saveConfig r2) (exec (saveConfig r1) w))) = None).
Proof.
  intros Ht He.
  destruct (saveConfig_with_candidate candidate r1 w Ht) as (Hreq1 & _).
  assert (Ht1 : tempConfig (store (exec (saveConfig r1) w)) = Some candidate).
  { destruct (saveConfig_failure_frame r1 w e He) as (_ & _ & _ & -> & _). done. }
  destruct (saveConfig_with_candidate candidate r2 _ Ht1)
    as (Hreq2 & Hc & _ & _ & _ & Hok & _).
  split.
  - rewrite Hreq2, Hreq1. by rewrite <- app_assoc.
  - intros data ->. destruct (Hok data eq_refl) as (? & ? & ? & ? & ? & _).
    by rewrite Hc.
Qed.

Lemma saveConfig_retry_after_failure_witness :
  tempConfig (store (exec (setTempConfig other_class) plain_world))
  = Some other_class ∧
  thrown_by (ResponseStatus 502) = Some (JsError "Error: 502") ∧
  classConfig (store (exec (saveConfig (ResponseOk math_lee))
                           (exec (saveConfig (ResponseStatus 502))
                                 (exec (setTempConfig other_class) plain_world))))
  = other_class.
Proof.
  assert (H1 : tempConfig (store (exec (setTempConfig other_class) plain_world))
               = Some other_class) by reflexivity.
  assert (H2 : thrown_by (ResponseStatus 502) = Some (JsError "Error: 502"))
    by reflexivity.
  split; [exact H1|]. split; [exact H2|].
  destruct (saveConfig_retry_after_failure other_class (ResponseStatus 502)
              (ResponseOk math_lee) _ _ H1 H2) as (_ & Hok).
  exact (proj1 (proj2 (Hok math_lee eq_refl))).
Defined.

(** X8: saveConfig resets the week flag before it fetches and does not put it
    back.  After a saveConfig with a candidate that failed while the store
    showed next week, the store says current week although the snapshot is
    still the one of next week, and changeWeek(false) is then a no-op, so it
    does not load the current week. *)
Theorem failed_saveConfig_strands_next_week_snapshot
        (candidate : ClassConfig) (r r2 : Response) (e : Thrown) (w : World) :
  tempConfig (store w) = Some candidate →
  thrown_by r = Some e →
  isNextWeek (store w) = true →
  isNextWeek (store (exec (saveConfig r) w)) = false ∧
  timetableData (store (exec (saveConfig r) w)) = timetableData (store w) ∧
  run (changeWeek false r2) (exec (saveConfig r) w)
  = (Normal tt, exec (saveConfig r) w).
Proof.
  intros Ht He Hn.
  assert (Hweek : isNextWeek (store (exec (saveConfig r) w)) = false).
  { by destruct (saveConfig_with_candidate candidate r w Ht) as (_ & _ & _ & _ & ? & _). }
  split; [done|]. split.
  - by destruct (saveConfig_failure_frame r w e He) as (_ & _ & -> & _).
  - by apply changeWeek_same_week.
Qed.

Lemma failed_saveConfig_strands_next_week_snapshot_witness :
  tempConfig (store (perform_all [ChangeWeek true (ResponseOk math_lee);
                                  SetTempConfig other_class] plain_world))
  = Some other_class ∧
  thrown_by (ResponseStatus 404) = Some (JsError "Error: 404") ∧
  isNextWeek (store (perform_all [ChangeWeek true (ResponseOk math_lee);
                                  SetTempConfig other_class] plain_world)) = true ∧
  isNextWeek (store (exec (saveConfig (ResponseStatus 404))
                          (perform_all [ChangeWeek true (ResponseOk math_lee);
                                        SetTempConfig other_class] plain_world)))
  = false ∧
  timetableData (store (exec (saveConfig (ResponseStatus 404))
                             (perform_all [ChangeWeek true (ResponseOk math_lee);
                                           SetTempConfig other_class] plain_world)))
  = Some math_lee.
Proof.
  assert (H1 : tempConfig (store (perform_all [ChangeWeek true (ResponseOk math_lee);
                                               SetTempConfig other_class] plain_world))
               = Some other_class) by reflexivity.
  assert (H2 : thrown_by (ResponseStatus 404) = Some (JsError "Error: 404"))
    by reflexivity.
  assert (H3 : isNextWeek (store (perform_all [ChangeWeek true (ResponseOk math_lee);
                                               SetTempConfig other_class] plain_world))
               = true) by reflexivity.
  split; [exact H1|]. split; [exact H2|]. split; [exact H3|].
  destruct (failed_saveConfig_strands_next_week_snapshot
              other_class (ResponseStatus 404) (ResponseOk math_kim) _ _ H1 H2 H3)
    as (Hw & Hd & _).
  split; [exact Hw|]. rewrite Hd. reflexivity.
Defined.

(** *** Overrides: isolation and round trips *)

(** X9: a write for one subject of the active class touches no other entry:
    the override stored under any other (key, subject) pair is unchanged, and
    the effective teacher of every other subject that is not named like a
    member of Object.prototype is the same as before. *)
Theorem saveTeacherInfo_touches_one_entry (subj info : string) (w : World) :
  (∀ k s, ¬ (k = configKey (classConfig (store w)) ∧ s = subj) →
     lookup_override (teacherInfo (store (exec (saveTeacherInfo subj info) w))) k s
     = lookup_override (teacherInfo (store w)) k s) ∧
  (∀ s, s ≠ subj → inherited s = false →
     getTeacherInfo s (store (exec (saveTeacherInfo subj info) w))
     = getTeacherInfo s (store w)).
Proof.
  assert (H : ∀ k s, ¬ (k = configKey (classConfig (store w)) ∧ s = subj) →
            lookup_override (teacherInfo (store (exec (saveTeacherInfo subj info) w))) k s
            = lookup_override (teacherInfo (store w)) k s).
  { intros k s Hks. rewrite saveTeacherInfo_lookup. by rewrite decide_False. }
  split; [done|].
  intros s Hs Hown. unfold getTeacherInfo.
  destruct (saveTeacherInfo_frame subj info w) as (_ & -> & -> & _).
  rewrite !(read_override_own _ _ _ Hown).
  rewrite H; [done|]. by intros [_ ?].
Qed.

Lemma saveTeacherInfo_touches_one_entry_witness :
  "Art" ≠ "Math" ∧ inherited "Art" = false ∧
  getTeacherInfo "Art" (store (exec (saveTeacherInfo "Math" "Choi") lee_world))
  = getTeacherInfo "Art" (store lee_world).
Proof.
  assert (H : "Art" ≠ "Math") by discriminate.
  assert (H2 : inherited "Art" = false) by reflexivity.
  split; [exact H|]. split; [exact H2|].
  exact (proj2 (saveTeacherInfo_touches_one_entry "Math" "Choi" lee_world) "Art" H H2).
Defined.

(** A first write for a class creates its record, and with the record the
    members it inherits come into reach of the read: the effective teacher of
    toString changes although nothing was written for it. *)
Example saveTeacherInfo_brings_inherited_names_into_reach :
  getTeacherInfo "constructor" (store (world_with proto_week ∅)) = Some (Stored "Kim") ∧
  getTeacherInfo "constructor"
    (store (exec (saveTeacherInfo "Math" "Lee") (world_with proto_week ∅)))
  = Some (Inherited "constructor").
Proof. split; by vm_compute. Qed.

(** X10: overriding a subject and then entering the server default again
    undoes the override.  For a subject with default D and no override, a
    non-empty name other than D followed by D leaves every stored (key,
    subject) entry as it was.  When the record of the class was not an empty
    one, the map itself, in the store and in the cookie, is the one before
    the two writes (a record created by the first write is deleted when the
    second empties it), and the effective teacher of the subject is as
    before; the effective teacher is also as before for every subject that is
    not named like a member of Object.prototype. *)
Theorem override_then_default_restores (subj info d : string) (w : World) :
  defaultInfo (timetableData (store w)) subj = Some d →
  info ≠ d → truthy info = true →
  lookup_override (teacherInfo (store w)) (configKey (classConfig (store w))) subj
  = None →
  (∀ k s,
     lookup_override
       (teacherInfo (store (exec (saveTeacherInfo subj d)
                                 (exec (saveTeacherInfo subj info) w)))) k s
     = lookup_override (teacherInfo (store w)) k s) ∧
  (teacherInfo (store w) !! configKey (classConfig (store w)) ≠ Some ∅ →
   teacherInfo (store (exec (saveTeacherInfo subj d)
                            (exec (saveTeacherInfo subj info) w)))
   = teacherInfo (store w) ∧
   cookie_teacherInfo (cookies (exec (saveTeacherInfo subj d)
                                     (exec (saveTeacherInfo subj info) w)))
   = Some (teacherInfo (store w)) ∧
   getTeacherInfo subj (store (exec (saveTeacherInfo subj d)
                                    (exec (saveTeacherInfo subj info) w)))
   = getTeacherInfo subj (store w)) ∧
  (inherited subj = false →
   getTeacherInfo subj (store (exec (saveTeacherInfo subj d)
                                    (exec (saveTeacherInfo subj info) w)))
   = getTeacherInfo subj (store w)).
Proof.
  intros Hd Hne Hinfo Hnone.
  destruct (saveTeacherInfo_frame subj info w) as (_ & Hcfg & Hdata & _).
  destruct (saveTeacherInfo_frame subj d (exec (saveTeacherInfo subj info) w))
    as (_ & Hcfg2 & Hdata2 & _).
  assert (Hl : ∀ k s,
            lookup_override
              (teacherInfo (store (exec (saveTeacherInfo subj d)
                                        (exec (saveTeacherInfo subj info) w)))) k s
            = lookup_override (teacherInfo (store w)) k s).
  { intros k s. rewrite saveTeacherInfo_lookup. rewrite Hcfg, Hdata, Hd.
    rewrite (bool_decide_false (Some d ≠ Some d)) by (intros H; by apply H).
    rewrite !saveTeacherInfo_lookup. rewrite Hd.
    rewrite (bool_decide_true (Some info ≠ Some d)) by congruence.
    rewrite (decide_True (P := _ = _ ∧ subj = subj)) by done. simpl.
    rewrite Hinfo.
    destruct (decide (k = configKey (classConfig (store w)) ∧ s = subj))
      as [[-> ->]|]; done. }
  split; [done|]. split.
  - intros Hrec.
    assert (Hne' : Some info ≠ defaultInfo (timetableData (store w)) subj)
      by (rewrite Hd; congruence).
    pose proof (saveTeacherInfo_write subj info w Hne') as H1.
    unfold run in H1.
    assert (Hmap :
              teacherInfo (store (exec (saveTeacherInfo subj d)
                                       (exec (saveTeacherInfo subj info) w)))
              = teacherInfo (store w) ∧
              cookie_teacherInfo (cookies (exec (saveTeacherInfo subj d)
                                                (exec (saveTeacherInfo subj info) w)))
              = Some (teacherInfo (store w))).
    { unfold exec at 2 4. rewrite H1. simpl.
      set (inner0 := default ∅ (teacherInfo (store w)
                                !! configKey (classConfig (store w)))).
      assert (Hs0 : inner0 !! subj = None).
      { unfold inner0. unfold lookup_override in Hnone.
        destruct (teacherInfo (store w) !! configKey (classConfig (store w)));
          simpl in *; [done | apply lookup_empty]. }
      assert (Heq : Some d
                    = defaultInfo
                        (timetableData
                           (store (stored (<[configKey (classConfig (store w))
                                             := <[subj := info]> inner0]>
                                           (teacherInfo (store w))) w))) subj)
        by (simpl; by rewrite Hd).
      assert (Hv : from_option member_truthy false
                     (read_member (<[subj := info]> inner0) subj) = true)
        by (rewrite read_member_truthy, lookup_insert_eq; done).
      pose proof (saveTeacherInfo_erase subj d _ (<[subj := info]> inner0) Heq
                    (lookup_insert_eq _ _ _) Hv) as H2.
      unfold exec. unfold run in H2. rewrite H2. simpl.
      rewrite delete_insert_eq, (delete_id _ _ Hs0).
      assert (Hback :
                (if bool_decide (size inner0 = 0)
                 then delete (configKey (classConfig (store w)))
                             (<[configKey (classConfig (store w))
                                := <[subj := info]> inner0]> (teacherInfo (store w)))
                 else <[configKey (classConfig (store w)) := inner0]>
                        (<[configKey (classConfig (store w))
                           := <[subj := info]> inner0]> (teacherInfo (store w))))
                = teacherInfo (store w)).
      { unfold inner0.
        destruct (teacherInfo (store w) !! configKey (classConfig (store w)))
          as [rec|] eqn:Hk; simpl.
        - rewrite bool_decide_false.
          + rewrite insert_insert_eq. by apply insert_id.
          + intros Hsz. apply map_size_empty_iff in Hsz. apply Hrec. by rewrite Hsz.
        - rewrite bool_decide_true by apply map_size_empty.
          rewrite delete_insert_eq. by apply delete_id. }
      by rewrite Hback. }
    destruct Hmap as [Hm Hc]. split; [done|]. split; [done|].
    unfold getTeacherInfo. by rewrite Hcfg2, Hdata2, Hcfg, Hdata, Hm.
  - intros Hown. unfold getTeacherInfo.
    rewrite Hcfg2, Hdata2, Hcfg, Hdata.
    rewrite !(read_override_own _ _ _ Hown). by rewrite Hl.
Qed.

Lemma override_then_default_restores_witness :
  defaultInfo (timetableData (store plain_world)) "Math" = Some "Kim" ∧
  "Lee" ≠ "Kim" ∧ truthy "Lee" = true ∧
  lookup_override (teacherInfo (store plain_world))
                  (configKey (classConfig (store plain_world))) "Math" = None ∧
  teacherInfo (store plain_world) !! configKey (classConfig (store plain_world))
  ≠ Some ∅ ∧
  teacherInfo (store (exec (saveTeacherInfo "Math" "Kim")
                           (exec (saveTeacherInfo "Math" "Lee") plain_world)))
  = teacherInfo (store plain_world) ∧
  getTeacherInfo "Math" (store (exec (saveTeacherInfo "Math" "Kim")
                                     (exec (saveTeacherInfo "Math" "Lee") plain_world)))
  = getTeacherInfo "Math" (store plain_world).
Proof.
  assert (H1 : defaultInfo (timetableData (store plain_world)) "Math" = Some "Kim")
    by reflexivity.
  assert (H2 : "Lee" ≠ "Kim") by discriminate.
  assert (H3 : truthy "Lee" = true) by reflexivity.
  assert (H4 : lookup_override (teacherInfo (store plain_world))
                 (configKey (classConfig (store plain_world))) "Math" = None)
    by reflexivity.
  assert (H5 : teacherInfo (store plain_world)
               !! configKey (classConfig (store plain_world)) ≠ Some ∅)
    by (vm_compute; discriminate).
  split; [exact H1|]. split; [exact H2|]. split; [exact H3|]. split; [exact H4|].
  split; [exact H5|].
  destruct (proj1 (proj2 (override_then_default_restores
                            "Math" "Lee" "Kim" plain_world H1 H2 H3 H4)) H5)
    as (Hm & _ & Hg).
  split; [exact Hm | exact Hg].
Defined.

(** With an empty record for the class and a subject named like an inherited
    member, the two writes delete the record, and the effective teacher
    changes from the inherited member to the default. *)
Example override_then_default_on_empty_record :
  teacherInfo (store empty_record_world)
  !! configKey (classConfig (store empty_record_world)) = Some ∅ ∧
  getTeacherInfo "constructor" (store empty_record_world)
  = Some (Inherited "constructor") ∧
  getTeacherInfo "constructor"
    (store (exec (saveTeacherInfo "constructor" "Kim")
                 (exec (saveTeacherInfo "constructor" "Lee") empty_record_world)))
  = Some (Stored "Kim").
Proof. repeat split; by vm_compute. Qed.

(** *** The class key *)

Lemma append_cons (c : ascii) (s t : string) :
  (String c s ++ t)%string = String c (s ++ t)%string.
Proof. reflexivity. Qed.

Lemma occurs_cons (c c' : ascii) (s : string) :
  occurs c (String c' s) = if Ascii.eqb c c' then true else occurs c s.
Proof. reflexivity. Qed.

Lemma split_at_hyphen (a a' b b' : string) :
  occurs "-" a = false → occurs "-" a' = false →
  (a ++ "-" ++ b)%string = (a' ++ "-" ++ b')%string → a = a' ∧ b = b'.
Proof.
  revert a'. induction a as [|c a IH]; intros [|c' a'] Ha Ha' Heq.
  - by injection Heq.
  - rewrite append_cons in Heq. injection Heq as <- _.
    simpl in Ha'. done.
  - rewrite append_cons in Heq. injection Heq as -> _.
    simpl in Ha. done.
  - rewrite !append_cons in Heq. injection Heq as -> Heq.
    rewrite occurs_cons in Ha, Ha'. revert Ha Ha'.
    destruct (Ascii.eqb "-" c'); [done|]. intros Ha Ha'.
    destruct (IH a' Ha Ha' Heq) as [-> ->]. done.
Qed.

Lemma occurs_append (c : ascii) (a b : string) :
  occurs c (a ++ b)%string = occurs c a || occurs c b.
Proof.
  induction a as [|c' a IH]; [done|].
  rewrite append_cons, !occurs_cons, IH. by destruct (Ascii.eqb c c').
Qed.

(** A class key is never the name of a member of Object.prototype, so the
    read [teacherInfo[configKey]] finds own records only. *)
Lemma configKey_not_inherited (c : ClassConfig) : inherited (configKey c) = false.
Proof.
  apply bool_decide_eq_false. intros Hin.
  assert (Hkey : occurs "-" (configKey c) = true).
  { unfold configKey. rewrite !occurs_append.
    change (occurs "-" "-") with true. by rewrite orb_true_r. }
  assert (Hall : Forall (λ name, occurs "-" name = false) OBJECT_PROTOTYPE)
    by (repeat constructor).
  rewrite Forall_forall in Hall. specialize (Hall _ Hin). congruence.
Qed.

(** X11: the class key separates identities as long as neither the school
    code nor the grade contains a hyphen: two such identities with the same
    key have the same school code, grade and class.  (With a hyphen in one of
    them two different classes can share a key, as [hyphen_school] and
    [hyphen_grade] do.) *)
Theorem configKey_injective_without_hyphens (c1 c2 : ClassConfig) :
  occurs "-" (schoolCode c1) = false → occurs "-" (grade c1) = false →
  occurs "-" (schoolCode c2) = false → occurs "-" (grade c2) = false →
  configKey c1 = configKey c2 →
  schoolCode c1 = schoolCode c2 ∧ grade c1 = grade c2 ∧ class c1 = class c2.
Proof.
  intros Hs1 Hg1 Hs2 Hg2 Heq. unfold configKey in Heq.
  destruct (split_at_hyphen _ _ _ _ Hs1 Hs2 Heq) as [Hs Hrest].
  destruct (split_at_hyphen _ _ _ _ Hg1 Hg2 Hrest) as [Hg Hc].
  done.
Qed.

Lemma configKey_injective_without_hyphens_witness :
  occurs "-" (schoolCode DEFAULT_CONFIG) = false ∧
  occurs "-" (grade DEFAULT_CONFIG) = false ∧
  occurs "-" (schoolCode (mkClassConfig "School" "7081492" "3" "4" 5)) = false ∧
  occurs "-" (grade (mkClassConfig "School" "7081492" "3" "4" 5)) = false ∧
  configKey DEFAULT_CONFIG = configKey (mkClassConfig "School" "7081492" "3" "4" 5) ∧
  class DEFAULT_CONFIG = class (mkClassConfig "School" "7081492" "3" "4" 5).
Proof.
  split; [reflexivity|]. split; [reflexivity|]. split; [reflexivity|].
  split; [reflexivity|]. split; [reflexivity|].
  exact (proj2 (proj2 (configKey_injective_without_hyphens
                         DEFAULT_CONFIG (mkClassConfig "School" "7081492" "3" "4" 5)
                         eq_refl eq_refl eq_refl eq_refl eq_refl))).
Defined.

Example configKey_collision_with_hyphens :
  configKey hyphen_school = configKey hyphen_grade ∧
  schoolCode hyphen_school ≠ schoolCode hyphen_grade ∧
  grade hyphen_school ≠ grade hyphen_grade.
Proof. split; [reflexivity|]. split; discriminate. Qed.

(** *** The default teacher of a subject *)

Lemma find_Some_split {A} (f : A → bool) (l : list A) (x : A) :
  List.find f l = Some x →
  ∃ pre post, l = (pre ++ x :: post)%list ∧ f x = true ∧
              ∀ y, y ∈ pre → f y = false.
Proof.
  induction l as [|y l IH]; simpl; [done|].
  destruct (f y) eqn:Hy.
  - intros [= ->]. exists [], l. split; [done|]. split; [done|].
    intros z Hz. by apply not_elem_of_nil in Hz.
  - intros Hfind. destruct (IH Hfind) as (pre & post & -> & Hx & Hpre).
    exists (y :: pre), post. split; [done|]. split; [done|].
    intros z Hz. apply elem_of_cons in Hz as [->|Hz]; [done | by apply Hpre].
Qed.

(** X12: the default teacher of a subject is read from the first cell that is
    not null and carries the subject, in row order: defaultInfo is absent
    exactly when no snapshot is loaded or no cell of the snapshot has the
    subject, and otherwise it is the teacher of a cell of that subject before
    which no cell has it. *)
Theorem defaultInfo_is_first_cell_of_subject
        (data : option TimetableData) (subj : string) :
  (defaultInfo data subj = None ↔
   data = None ∨
   ∃ d, data = Some d ∧
        ∀ c, Some c ∈ List.concat (timetable d) → subject c ≠ subj) ∧
  (∀ name, defaultInfo data subj = Some name ↔
   ∃ d pre c post,
     data = Some d ∧
     List.concat (timetable d) = (pre ++ Some c :: post)%list ∧
     subject c = subj ∧ teacher c = name ∧
     ∀ x, x ∈ pre → subject <$> x ≠ Some subj).
Proof.
  assert (Hsome : ∀ name, defaultInfo data subj = Some name ↔
            ∃ d pre c post,
              data = Some d ∧
              List.concat (timetable d) = (pre ++ Some c :: post)%list ∧
              subject c = subj ∧ teacher c = name ∧
              ∀ x, x ∈ pre → subject <$> x ≠ Some subj).
  { intros name. split.
    - destruct data as [d|]; [|done]. unfold defaultInfo. simpl.
      destruct (List.find _ _) as [[c|]|] eqn:Hfind; simpl; [|done|done].
      intros [= <-].
      destruct (find_Some_split _ _ _ Hfind) as (pre & post & Hl & Hc & Hpre).
      apply bool_decide_eq_true in Hc. simpl in Hc.
      exists d, pre, c, post. split_and!; try done; [congruence|].
      intros x Hx. specialize (Hpre x Hx). by apply bool_decide_eq_false in Hpre.
    - intros (d & pre & c & post & -> & Hl & Hc & <- & Hpre).
      by apply (defaultInfo_first_match d subj pre post c). }
  split; [|exact Hsome].
  split.
  - intros Hnone. destruct data as [d|]; [right | by left].
    exists d. split; [done|]. intros c Hin Hc.
    apply list_elem_of_split in Hin as (l1 & l2 & Hl).
    assert (Hex : ∃ x, List.find (λ cell, bool_decide (subject <$> cell = Some subj))
                                 (List.concat (timetable d)) = Some x).
    { destruct (List.find _ _) as [x|] eqn:Hfind; [by exists x|].
      pose proof (List.find_none _ _ Hfind (Some c)) as Hf.
      rewrite Hl in Hf.
      rewrite bool_decide_true in Hf by (simpl; congruence).
      discriminate Hf. apply in_elt. }
    destruct Hex as [x Hfind].
    destruct (find_Some_split _ _ _ Hfind) as (pre & post & Hl' & Hx & _).
    apply bool_decide_eq_true in Hx.
    destruct x as [c'|]; [|done].
    unfold defaultInfo in Hnone. simpl in Hnone. by rewrite Hfind in Hnone.
  - intros [->|(d & -> & Hall)]; [done|].
    apply eq_None_not_Some. intros [name Hdef].
    apply Hsome in Hdef as (d' & pre & c & post & [= <-] & Hl & Hc & _).
    apply (Hall c); [|done]. rewrite Hl.
    apply elem_of_app. right. apply list_elem_of_here.
Qed.

Lemma defaultInfo_is_first_cell_of_subject_witness :
  defaultInfo (Some math_kim) "Math" = Some "Kim" ∧
  ∃ d pre c post,
    Some math_kim = Some d ∧
    List.concat (timetable d) = (pre ++ Some c :: post)%list ∧
    subject c = "Math" ∧ teacher c = "Kim" ∧
    ∀ x, x ∈ pre → subject <$> x ≠ Some "Math".
Proof.
  assert (H : defaultInfo (Some math_kim) "Math" = Some "Kim") by reflexivity.
  split; [exact H|].
  exact (proj1 (proj2 (defaultInfo_is_first_cell_of_subject (Some math_kim) "Math")
                      "Kim") H).
Defined.

(** *** Switching class *)

(** X13: overrides are scoped by class key and survive a switch.  After a
    saveConfig that succeeds, the override map is the one before, and the
    effective teacher of a subject is what the read under the key of the new
    identity yields, and otherwise the non-empty default of the new snapshot:
    for a subject not named like a member of Object.prototype that is the
    override stored under the new key if there is one, and else that default.
    Overrides under other keys are not consulted. *)
Theorem saveConfig_switches_override_scope
        (candidate : ClassConfig) (data : TimetableData) (subj : string) (w : World) :
  tempConfig (store w) = Some candidate →
  teacherInfo (store (exec (saveConfig (ResponseOk data)) w)) = teacherInfo (store w) ∧
  getTeacherInfo subj (store (exec (saveConfig (ResponseOk data)) w))
  = match read_override (teacherInfo (store w)) (configKey candidate) subj with
    | Some override => Some override
    | None => d ← defaultInfo (Some data) subj;
              if truthy d then Some (Stored d) else None
    end ∧
  (inherited subj = false →
   getTeacherInfo subj (store (exec (saveConfig (ResponseOk data)) w))
   = match lookup_override (teacherInfo (store w)) (configKey candidate) subj with
     | Some override => Some (Stored override)
     | None => d ← defaultInfo (Some data) subj;
               if truthy d then Some (Stored d) else None
     end).
Proof.
  intros Ht.
  destruct (saveConfig_fields (ResponseOk data) w) as (Hm & _).
  destruct (saveConfig_with_candidate candidate (ResponseOk data) w Ht)
    as (_ & _ & _ & _ & _ & Hok & _).
  destruct (Hok data eq_refl) as (Hc & _ & _ & Hd & _).
  assert (Hget : getTeacherInfo subj (store (exec (saveConfig (ResponseOk data)) w))
                 = match read_override (teacherInfo (store w)) (configKey candidate) subj with
                   | Some override => Some override
                   | None => d ← defaultInfo (Some data) subj;
                             if truthy d then Some (Stored d) else None
                   end).
  { unfold getTeacherInfo. rewrite Hm, Hc, Hd.
    destruct (read_override _ _ subj); [done|].
    by destruct (defaultInfo (Some data) subj). }
  split; [done|]. split; [done|].
  intros Hown. rewrite Hget, (read_override_own _ _ _ Hown).
  by destruct (lookup_override _ _ subj).
Qed.

Lemma saveConfig_switches_override_scope_witness :
  tempConfig (store (exec (setTempConfig other_class) lee_world)) = Some other_class ∧
  inherited "Math" = false ∧
  getTeacherInfo "Math" (store (exec (setTempConfig other_class) lee_world))
  = Some (Stored "Lee") ∧
  getTeacherInfo "Math"
    (store (exec (saveConfig (ResponseOk math_kim))
                 (exec (setTempConfig other_class) lee_world)))
  = Some (Stored "Kim").
Proof.
  assert (H : tempConfig (store (exec (setTempConfig other_class) lee_world))
              = Some other_class) by reflexivity.
  assert (H2 : inherited "Math" = false) by reflexivity.
  split; [exact H|]. split; [exact H2|]. split; [by vm_compute|].
  rewrite (proj2 (proj2 (saveConfig_switches_override_scope
                           other_class math_kim "Math" _ H)) H2).
  by vm_compute.
Defined.

(** *** Start-up *)

(** X14: initializeStore takes identity and overrides from the cookies (the
    built-in default and the empty map where a cookie is missing), empties
    the edit buffer and sends exactly one query, for week 0 of that identity,
    whatever week the store showed.  A success installs the response and
    puts the store on the current week; a failure leaves snapshot and week
    flag as they were. *)
Theorem initializeStore_loads_cookies_and_fetches_week_zero (r : Response) (w : World) :
  requests (exec (initializeStore r) w)
  = (requests w ++
     [mkRequest (grade (default DEFAULT_CONFIG (cookie_classConfig (cookies w))))
                (class (default DEFAULT_CONFIG (cookie_classConfig (cookies w))))
                "0"
                (schoolCode (default DEFAULT_CONFIG (cookie_classConfig (cookies w))))])%list ∧
  classConfig (store (exec (initializeStore r) w))
  = default DEFAULT_CONFIG (cookie_classConfig (cookies w)) ∧
  teacherInfo (store (exec (initializeStore r) w))
  = default ∅ (cookie_teacherInfo (cookies w)) ∧
  tempConfig (store (exec (initializeStore r) w)) = None ∧
  cookies (exec (initializeStore r) w) = cookies w ∧
  (∀ data, r = ResponseOk data →
     timetableData (store (exec (initializeStore r) w)) = Some data ∧
     isNextWeek (store (exec (initializeStore r) w)) = false) ∧
  (∀ e, thrown_by r = Some e →
     timetableData (store (exec (initializeStore r) w)) = timetableData (store w) ∧
     isNextWeek (store (exec (initializeStore r) w)) = isNextWeek (store w)).
Proof.
  destruct r as [data|status|e0]; simpl; split_and!; try done;
    try (by intros ? [= <-]); by intros ? [=].
Qed.

Lemma initializeStore_loads_cookies_and_fetches_week_zero_witness :
  (ResponseOk math_kim = ResponseOk math_kim ∧
   store (exec (initializeStore (ResponseOk math_kim)) initial_world)
   = mkState DEFAULT_CONFIG ∅ None (Some math_kim) false false None false false ∧
   requests (exec (initializeStore (ResponseOk math_kim)) initial_world)
   = [mkRequest "3" "4" "0" "7081492"]) ∧
  (thrown_by (ResponseStatus 500) = Some (JsError "Error: 500") ∧
   isNextWeek (store (exec (initializeStore (ResponseStatus 500))
                           (exec (changeWeek true (ResponseOk math_lee)) plain_world)))
   = true).
Proof.
  split.
  - split; [reflexivity|].
    pose proof (initializeStore_loads_cookies_and_fetches_week_zero
                  (ResponseOk math_kim) initial_world) as (Hreq & _).
    split; [reflexivity | exact Hreq].
  - assert (H : thrown_by (ResponseStatus 500) = Some (JsError "Error: 500"))
      by reflexivity.
    split; [exact H|].
    destruct (initializeStore_loads_cookies_and_fetches_week_zero
                (ResponseStatus 500)
                (exec (changeWeek true (ResponseOk math_lee)) plain_world))
      as (_ & _ & _ & _ & _ & _ & Hfail).
    rewrite (proj2 (Hfail _ H)). reflexivity.
Defined.

(** *** The edit buffer of the settings dialog *)

(** X15: closing the dialog discards a pending edit.  Opening the dialog,
    putting a candidate in the buffer and closing it leaves exactly the world
    that closing alone leaves; closing changes only the dialog flag, the
    buffer and the error message (identity, overrides, snapshot, week, flags,
    cookies and requests stay); and the buffer is empty when the dialog is
    opened again. *)
Theorem closing_dialog_discards_edit (config : ClassConfig) (w : World) :
  exec (setShowConfig false) (exec (setTempConfig config) (exec (setShowConfig true) w))
  = exec (setShowConfig false) w ∧
  exec (setShowConfig false) w
  = mkWorld (set_showConfig false (set_tempConfig None (set_error None (store w))))
            (cookies w) (requests w) ∧
  tempConfig (store (exec (setShowConfig true)
                          (exec (setShowConfig false)
                                (exec (setTempConfig config) w)))) = None ∧
  tempConfig (store (exec (setShowConfig true) (exec (setTempConfig config) w)))
  = Some config.
Proof. split_and!; reflexivity. Qed.

(** *** The teacher-info editor: typing and saving *)

Lemma tooLongMessage_nonempty : TeacherInfoPopup.tooLongMessage ≠ "".
Proof. discriminate. Qed.

(** X16: the message shown while typing tells whether a save will go
    through.  After handleChange(value) the error is empty exactly when the
    value has at most 4 UTF-16 code units; with an error showing, a save (by
    the button or by Enter) calls nothing and leaves popup and world exactly
    as they are; with no error it hands the typed value to onSave and closes
    the popup; keys other than Enter never save. *)
Theorem typed_name_error_agrees_with_save
        (value : string) (onSave : string → Js unit)
        (p : TeacherInfoPopup.Popup) (w : World) :
  (TeacherInfoPopup.error (TeacherInfoPopup.handleChange value p) = ""
   ↔ (TeacherInfoPopup.js_length value ≤ 4)%nat) ∧
  (TeacherInfoPopup.error (TeacherInfoPopup.handleChange value p) ≠ "" →
   run (TeacherInfoPopup.handleSave onSave (TeacherInfoPopup.handleChange value p)) w
   = (Normal (TeacherInfoPopup.handleChange value p), w) ∧
   run (popup_handleKeyDown "Enter" onSave (TeacherInfoPopup.handleChange value p)) w
   = (Normal (TeacherInfoPopup.handleChange value p), w)) ∧
  (TeacherInfoPopup.error (TeacherInfoPopup.handleChange value p) = "" →
   run (TeacherInfoPopup.handleSave onSave (TeacherInfoPopup.handleChange value p)) w
   = run (onSave value;; mret (TeacherInfoPopup.mkPopup value false "")) w) ∧
  (∀ k, k ≠ "Enter" →
     run (popup_handleKeyDown k onSave (TeacherInfoPopup.handleChange value p)) w
     = (Normal (TeacherInfoPopup.handleChange value p), w)).
Proof.
  assert (Herr : TeacherInfoPopup.error (TeacherInfoPopup.handleChange value p) = ""
                 ↔ (TeacherInfoPopup.js_length value ≤ 4)%nat).
  { unfold TeacherInfoPopup.handleChange. simpl.
    destruct (Nat.ltb_spec 4 (TeacherInfoPopup.js_length value)).
    - split; [intros H0; by destruct tooLongMessage_nonempty | lia].
    - split; [lia | done]. }
  split; [exact Herr|]. split; [|split].
  - intros Hne.
    assert (Hlong : (4 < TeacherInfoPopup.js_length value)%nat).
    { destruct (Nat.le_gt_cases (TeacherInfoPopup.js_length value) 4) as [Hle|]; [|done].
      by apply Herr in Hle. }
    assert (Hrun : run (TeacherInfoPopup.handleSave onSave
                          (TeacherInfoPopup.handleChange value p)) w
                   = (Normal (TeacherInfoPopup.handleChange value p), w)).
    { rewrite handleSave_long by done.
      unfold TeacherInfoPopup.handleChange. simpl.
      destruct (Nat.ltb_spec 4 (TeacherInfoPopup.js_length value)); [done | lia]. }
    split; [exact Hrun|]. exact Hrun.
  - intros He. apply Herr in He.
    by rewrite handleSave_short.
  - intros k Hk. unfold popup_handleKeyDown.
    destruct (String.eqb_spec k "Enter"); done.
Qed.

Lemma typed_name_error_agrees_with_save_witness :
  (TeacherInfoPopup.error
     (TeacherInfoPopup.handleChange "김철수선생님" (TeacherInfoPopup.mkPopup "" true ""))
   ≠ "" ∧
   run (TeacherInfoPopup.handleSave (saveTeacherInfo "Math")
          (TeacherInfoPopup.handleChange "김철수선생님"
             (TeacherInfoPopup.mkPopup "" true ""))) plain_world
   = (Normal (TeacherInfoPopup.handleChange "김철수선생님"
                (TeacherInfoPopup.mkPopup "" true "")), plain_world)) ∧
  (TeacherInfoPopup.error
     (TeacherInfoPopup.handleChange "이영희" (TeacherInfoPopup.mkPopup "" true ""))
   = "" ∧
   getTeacherInfo "Math"
     (store (snd (run (TeacherInfoPopup.handleSave (saveTeacherInfo "Math")
                         (TeacherInfoPopup.handleChange "이영희"
                            (TeacherInfoPopup.mkPopup "" true ""))) plain_world)))
   = Some (Stored "이영희")).
Proof.
  split.
  - assert (H : TeacherInfoPopup.error
                  (TeacherInfoPopup.handleChange "김철수선생님"
                     (TeacherInfoPopup.mkPopup "" true "")) ≠ "")
      by (vm_compute; discriminate).
    split; [exact H|].
    exact (proj1 (proj1 (proj2 (typed_name_error_agrees_with_save
                                  "김철수선생님" (saveTeacherInfo "Math")
                                  (TeacherInfoPopup.mkPopup "" true "")
                                  plain_world)) H)).
  - assert (H : TeacherInfoPopup.error
                  (TeacherInfoPopup.handleChange "이영희"
                     (TeacherInfoPopup.mkPopup "" true "")) = "")
      by reflexivity.
    split; [exact H|].
    rewrite (proj1 (proj2 (proj2 (typed_name_error_agrees_with_save
                                    "이영희" (saveTeacherInfo "Math")
                                    (TeacherInfoPopup.mkPopup "" true "")
                                    plain_world))) H).
    by vm_compute.
Defined.

(** *** The settings dialog: the keydown handlers *)

(** X17: a keydown in the school name input of the settings dialog hands the
    buffer to onSave exactly once when the key is Enter, with or without
    Shift, and never otherwise: the handler of the input stops the
    propagation, so the handler of the dialog content, which on its own saves
    on Enter without Shift, does not save a second time.  (Both handlers
    together would save twice on Enter without Shift.) *)
Theorem school_input_keydown_saves_once
        {Config : Type} (e : ConfigDialog.KeyboardEvent) (tempConfig : Config) :
  ConfigDialog.keyDownInSchoolInput e tempConfig
  = (if bool_decide (ConfigDialog.key e = "Enter") then [tempConfig] else []) ∧
  ConfigDialog.saved (ConfigDialog.handleKeyDown e tempConfig)
  = (if bool_decide (ConfigDialog.key e = "Enter" ∧ ConfigDialog.shiftKey e = false)
     then [tempConfig] else []) ∧
  (ConfigDialog.key e = "Enter" → ConfigDialog.shiftKey e = false →
   (ConfigDialog.saved (ConfigDialog.schoolKeyDown e tempConfig)
    ++ ConfigDialog.saved (ConfigDialog.handleKeyDown e tempConfig))%list
   = [tempConfig; tempConfig]).
Proof.
  unfold ConfigDialog.keyDownInSchoolInput,
    ConfigDialog.schoolKeyDown, ConfigDialog.handleKeyDown, ConfigDialog.handleSave.
  destruct (String.eqb_spec (ConfigDialog.key e) "Enter") as [He|He];
    destruct (ConfigDialog.shiftKey e); simpl.
  - rewrite bool_decide_true by done.
    rewrite bool_decide_false by (by intros [_ ?]).
    split_and!; done.
  - rewrite !bool_decide_true by done. split_and!; done.
  - rewrite !bool_decide_false by (try intros [? _]; done).
    split_and!; done.
  - rewrite !bool_decide_false by (try intros [? _]; done).
    split_and!; done.
Qed.

Lemma school_input_keydown_saves_once_witness :
  ConfigDialog.key (ConfigDialog.mkKeyboardEvent "Enter" false) = "Enter" ∧
  ConfigDialog.shiftKey (ConfigDialog.mkKeyboardEvent "Enter" false) = false ∧
  ConfigDialog.keyDownInSchoolInput
    (ConfigDialog.mkKeyboardEvent "Enter" false) other_class = [other_class] ∧
  (ConfigDialog.saved
     (ConfigDialog.schoolKeyDown (ConfigDialog.mkKeyboardEvent "Enter" false) other_class)
   ++ ConfigDialog.saved
        (ConfigDialog.handleKeyDown (ConfigDialog.mkKeyboardEvent "Enter" false)
                                    other_class))%list
  = [other_class; other_class].
Proof.
  split; [reflexivity|]. split; [reflexivity|].
  destruct (school_input_keydown_saves_once
              (ConfigDialog.mkKeyboardEvent "Enter" false) other_class)
    as (Hin & _ & Htwice).
  split; [exact Hin | exact (Htwice eq_refl eq_refl)].
Defined.

(** *** Requests *)

Lemma perform_requests (a : Action) (w : World) :
  ∃ sent, requests (perform a w) = (requests w ++ sent)%list ∧
          (length sent ≤ 1)%nat ∧
          (response_of a = None → sent = []).
Proof.
  destruct a; simpl.
  - eexists [_]. split_and!; [by destruct r | simpl; lia | done].
  - exists []. split_and!; [by rewrite app_nil_r | simpl; lia | done].
  - exists []. split_and!; [by rewrite app_nil_r | simpl; lia | done].
  - exists []. split_and!; [by rewrite app_nil_r | simpl; lia | done].
  - destruct (decide (isNextWeek (store w) = isNext)) as [Heq|Hne].
    + exists []. pose proof (changeWeek_same_week isNext r w Heq) as H.
      unfold exec. unfold run in H. rewrite H. simpl.
      split; [by rewrite app_nil_r|]. split; [lia | done].
    + destruct (changeWeek_other_week isNext r w Hne) as (-> & _).
      eexists [_]. split; [done|]. split; [simpl; lia | done].
  - destruct (tempConfig (store w)) as [candidate|] eqn:Ht.
    + destruct (saveConfig_with_candidate candidate r w Ht) as (-> & _).
      eexists [_]. split; [done|]. split; [simpl; lia | done].
    + exists []. pose proof (saveConfig_no_candidate r w Ht) as H.
      unfold exec. unfold run in H. rewrite H. simpl.
      split; [by rewrite app_nil_r|]. split; [lia | done].
  - exists []. destruct (saveTeacherInfo_frame subj info w) as (_ & _ & _ & _ & -> & _).
    split_and!; [by rewrite app_nil_r | simpl; lia | done].
  - eexists [_]. split_and!; [by destruct r | simpl; lia | done].
Qed.

(** X18: every action sends at most one request and never drops one from the
    log; setTempConfig, resetTempConfig, setShowConfig and saveTeacherInfo
    send none.  A sequence of n actions therefore sends at most n requests. *)
Theorem each_action_sends_at_most_one_request (a : Action) (l : list Action) (w : World) :
  (∃ sent, requests (perform a w) = (requests w ++ sent)%list ∧
           (length sent ≤ 1)%nat ∧
           (response_of a = None → sent = [])) ∧
  (length (requests (perform_all l w)) ≤ length (requests w) + length l)%nat.
Proof.
  split; [apply perform_requests|].
  revert w. induction l as [|b l IH]; intros w; simpl; [lia|].
  destruct (perform_requests b w) as (sent & Hreq & Hlen & _).
  specialize (IH (perform b w)). rewrite Hreq, length_app in IH. lia.
Qed.

Lemma each_action_sends_at_most_one_request_witness :
  response_of (SaveTeacherInfo "Math" "Lee") = None ∧
  requests (perform (SaveTeacherInfo "Math" "Lee") plain_world)
  = requests plain_world.
Proof.
  assert (H : response_of (SaveTeacherInfo "Math" "Lee") = None) by reflexivity.
  split; [exact H|].
  destruct (proj1 (each_action_sends_at_most_one_request
                     (SaveTeacherInfo "Math" "Lee") [] plain_world))
    as (sent & Hreq & _ & Hnone).
  rewrite Hreq, (Hnone H). reflexivity.
Defined.

(** X19: a refresh reloads the week that is shown.  After a changeWeek that
    did not fail (it succeeded or had nothing to do) the store is on the
    requested week, and a fetchTimetable that follows asks for that week of
    the active class. *)
Theorem refresh_after_changeWeek_asks_same_week
        (isNext : bool) (r r2 : Response) (w : World) :
  thrown_by r = None →
  isNextWeek (store (exec (changeWeek isNext r) w)) = isNext ∧
  last (requests (exec (fetchTimetable None r2) (exec (changeWeek isNext r) w)))
  = Some (mkRequest (grade (classConfig (store w))) (class (classConfig (store w)))
                    (week_param isNext) (schoolCode (classConfig (store w)))).
Proof.
  intros Hok.
  assert (Hweek : isNextWeek (store (exec (changeWeek isNext r) w)) = isNext).
  { destruct (decide (isNextWeek (store w) = isNext)) as [Heq|Hne].
    - pose proof (changeWeek_same_week isNext r w Heq) as H.
      unfold exec. unfold run in H. by rewrite H.
    - destruct (changeWeek_other_week isNext r w Hne) as (_ & _ & _ & Hr).
      destruct r; simpl in Hok; try done. by destruct Hr. }
  split; [done|].
  destruct (changeWeek_fields isNext r w) as (Hcfg & _).
  assert (Hreq : ∀ w0,
            requests (exec (fetchTimetable None r2) w0)
            = (requests w0 ++
               [mkRequest (grade (classConfig (store w0)))
                          (class (classConfig (store w0)))
                          (week_param (isNextWeek (store w0)))
                          (schoolCode (classConfig (store w0)))])%list)
    by (intros w0; by destruct r2).
  rewrite Hreq, Hweek, Hcfg. apply last_snoc.
Qed.

Lemma refresh_after_changeWeek_asks_same_week_witness :
  thrown_by (ResponseOk math_lee) = None ∧
  last (requests (exec (fetchTimetable None (ResponseStatus 500))
                       (exec (changeWeek true (ResponseOk math_lee)) plain_world)))
  = Some (mkRequest "3" "4" "1" "7081492").
Proof.
  assert (H : thrown_by (ResponseOk math_lee) = None) by reflexivity.
  split; [exact H|].
  exact (proj2 (refresh_after_changeWeek_asks_same_week
                  true (ResponseOk math_lee) (ResponseStatus 500) plain_world H)).
Defined.

(** *** Shape of the override map *)

Lemma saveTeacherInfo_NoEmptyRecord (subj info : string) (w : World) :
  NoEmptyRecord (teacherInfo (store w)) →
  NoEmptyRecord (teacherInfo (store (exec (saveTeacherInfo subj info) w))).
Proof.
  intros Hm. unfold exec.
  destruct (decide (Some info = defaultInfo (timetableData (store w)) subj))
    as [Heq|Hne].
  - destruct (teacherInfo (store w) !! configKey (classConfig (store w)))
      as [inner|] eqn:Hk.
    + destruct (from_option member_truthy false (read_member inner subj)) eqn:Hv.
      * pose proof (saveTeacherInfo_erase subj info w inner Heq Hk Hv) as H.
        unfold run in H. rewrite H. simpl.
        intros k rec. case_bool_decide as Hsz.
        -- intros Hl. apply lookup_delete_Some in Hl as [_ Hl]. by apply (Hm k).
        -- intros Hl. apply lookup_insert_Some in Hl as [[_ <-]|[_ Hl]].
           ++ intros Hempty. apply Hsz. rewrite Hempty. apply map_size_empty.
           ++ by apply (Hm k).
      * assert (Hv' : from_option member_truthy false
                        (read_override (teacherInfo (store w))
                                       (configKey (classConfig (store w))) subj)
                      = false) by (unfold read_override; by rewrite Hk).
        pose proof (saveTeacherInfo_skip subj info w Heq Hv') as H.
        unfold run in H. by rewrite H.
    + assert (Hv' : from_option member_truthy false
                      (read_override (teacherInfo (store w))
                                     (configKey (classConfig (store w))) subj)
                    = false) by (by rewrite read_override_no_record).
      pose proof (saveTeacherInfo_skip subj info w Heq Hv') as H.
      unfold run in H. by rewrite H.
  - pose proof (saveTeacherInfo_write subj info w Hne) as H.
    unfold run in H. rewrite H. simpl.
    intros k rec Hl. apply lookup_insert_Some in Hl as [[_ <-]|[_ Hl]].
    + apply insert_non_empty.
    + by apply (Hm k).
Qed.

Lemma perform_NoEmptyRecord (a : Action) (w : World) :
  Persisted w → NoEmptyRecord (teacherInfo (store w)) →
  NoEmptyRecord (teacherInfo (store (perform a w))).
Proof.
  intros [_ Hp] Hm. destruct a; simpl; try done.
  - destruct (initializeStore_fields r w) as (_ & -> & _). by rewrite Hp.
  - by destruct (changeWeek_fields isNext r w) as (_ & -> & _).
  - by destruct (saveConfig_fields r w) as (-> & _).
  - by apply saveTeacherInfo_NoEmptyRecord.
  - by destruct (fetchTimetable_fields config r w) as (_ & -> & _).
Qed.

(** X20: the override map never keeps an empty record for a class.
    saveTeacherInfo deletes the class key together with its last subject, so
    from a state whose cookies agree with the store and whose map has no
    empty record, and in particular from the state the store is created with,
    no sequence of actions produces one. *)
Theorem override_map_has_no_empty_record (l : list Action) (w : World) :
  (Persisted w → NoEmptyRecord (teacherInfo (store w)) →
   NoEmptyRecord (teacherInfo (store (perform_all l w)))) ∧
  NoEmptyRecord (teacherInfo (store (perform_all l initial_world))).
Proof.
  assert (H : ∀ w0, Persisted w0 → NoEmptyRecord (teacherInfo (store w0)) →
                    NoEmptyRecord (teacherInfo (store (perform_all l w0)))).
  { induction l as [|a l IH]; intros w0 Hp Hm; simpl; [done|].
    apply IH; [by apply perform_Persisted | by apply perform_NoEmptyRecord]. }
  split; [apply H|].
  apply H; [split; reflexivity|].
  intros k rec Hl. simpl in Hl. by rewrite lookup_empty in Hl.
Qed.

Lemma lee_world_NoEmptyRecord : NoEmptyRecord (teacherInfo (store lee_world)).
Proof.
  intros k rec Hl. simpl in Hl.
  apply lookup_singleton_Some in Hl as [_ <-]. apply insert_non_empty.
Qed.

Lemma override_map_has_no_empty_record_witness :
  Persisted lee_world ∧
  NoEmptyRecord (teacherInfo (store lee_world)) ∧
  NoEmptyRecord (teacherInfo (store (perform_all [SaveTeacherInfo "Math" "Kim";
                                                  InitializeStore (ResponseStatus 500)]
                                                 lee_world))).
Proof.
  assert (H1 : Persisted lee_world) by (split; reflexivity).
  split; [exact H1|]. split; [exact lee_world_NoEmptyRecord|].
  exact (proj1 (override_map_has_no_empty_record
                  [SaveTeacherInfo "Math" "Kim"; InitializeStore (ResponseStatus 500)]
                  lee_world) H1 lee_world_NoEmptyRecord).
Defined.

(** *** Reading the effective teacher *)

(** X21: getTeacherInfo returns undefined exactly when the override read
    yields nothing (no string is stored for the active class and the subject
    and no member of that name is inherited through a record of the class)
    and the snapshot gives the subject no default or the empty string; it
    returns the empty string exactly when the stored override is the empty
    string, never for a default; and it returns something that is not a
    string only for a subject named like a member of Object.prototype with
    nothing stored and a record of the class present. *)
Theorem getTeacherInfo_undefined_and_empty (subj : string) (s : State) :
  (getTeacherInfo subj s = None ↔
   read_override (teacherInfo s) (configKey (classConfig s)) subj = None ∧
   (defaultInfo (timetableData s) subj = None ∨
    defaultInfo (timetableData s) subj = Some "")) ∧
  (getTeacherInfo subj s = Some (Stored "") ↔
   lookup_override (teacherInfo s) (configKey (classConfig s)) subj = Some "") ∧
  (∀ name, getTeacherInfo subj s = Some (Inherited name) ↔
   name = subj ∧ inherited subj = true ∧
   lookup_override (teacherInfo s) (configKey (classConfig s)) subj = None ∧
   is_Some (teacherInfo s !! configKey (classConfig s))) ∧
  (read_override (teacherInfo s) (configKey (classConfig s)) subj = None ↔
   lookup_override (teacherInfo s) (configKey (classConfig s)) subj = None ∧
   (inherited subj = false ∨ teacherInfo s !! configKey (classConfig s) = None)).
Proof.
  unfold getTeacherInfo, read_override, lookup_override, read_member.
  destruct (teacherInfo s !! configKey (classConfig s)) as [rec|]; simpl.
  - destruct (rec !! subj) as [o|]; simpl.
    + split_and!.
      * split; [done | by intros [? _]].
      * split; congruence.
      * intros name. split; [done | by intros (_ & _ & ? & _)].
      * split; [done | by intros [? _]].
    + destruct (inherited subj) eqn:Hi.
      * split_and!.
        -- split; [done | by intros [? _]].
        -- split; done.
        -- intros name. split; [intros [= <-]; eauto | by intros (-> & _)].
        -- split; [done | intros [_ [?|?]]; done].
      * split_and!.
        -- destruct (defaultInfo (timetableData s) subj) as [[|c d]|]; simpl.
           ++ split; [intros _; split; [done | by right] | done].
           ++ split; [done | intros [_ [?|?]]; done].
           ++ split; [intros _; split; [done | by left] | done].
        -- destruct (defaultInfo (timetableData s) subj) as [[|c d]|]; simpl;
             split; done.
        -- intros name.
           destruct (defaultInfo (timetableData s) subj) as [[|c d]|]; simpl;
             (split; [done | by intros (_ & ? & _)]).
        -- split; [intros _; split; [done | by left] | done].
  - split_and!.
    + destruct (defaultInfo (timetableData s) subj) as [[|c d]|]; simpl.
      * split; [intros _; split; [done | by right] | done].
      * split; [done | intros [_ [?|?]]; done].
      * split; [intros _; split; [done | by left] | done].
    + destruct (defaultInfo (timetableData s) subj) as [[|c d]|]; simpl;
        split; done.
    + intros name.
      destruct (defaultInfo (timetableData s) subj) as [[|c d]|]; simpl;
        (split; [done | intros (_ & _ & _ & [? ?]); done]).
    + split; [intros _; split; [done | by right] | done].
Qed.

Lemma getTeacherInfo_undefined_and_empty_witness :
  (read_override (teacherInfo (store plain_world))
                 (configKey (classConfig (store plain_world))) "PE" = None ∧
   defaultInfo (timetableData (store plain_world)) "PE" = None ∧
   getTeacherInfo "PE" (store plain_world) = None) ∧
  (getTeacherInfo "Math" (store blank_world) = Some (Stored "") ∧
   lookup_override (teacherInfo (store blank_world))
                   (configKey (classConfig (store blank_world))) "Math" = Some "") ∧
  (getTeacherInfo "toString" (store proto_world) = Some (Inherited "toString") ∧
   inherited "toString" = true).
Proof.
  split; [|split].
  - assert (H1 : read_override (teacherInfo (store plain_world))
                   (configKey (classConfig (store plain_world))) "PE" = None)
      by reflexivity.
    assert (H2 : defaultInfo (timetableData (store plain_world)) "PE" = None)
      by reflexivity.
    split; [exact H1|]. split; [exact H2|].
    exact (proj2 (proj1 (getTeacherInfo_undefined_and_empty "PE" (store plain_world)))
                 (conj H1 (or_introl H2))).
  - assert (H : getTeacherInfo "Math" (store blank_world) = Some (Stored ""))
      by (by vm_compute).
    split; [exact H|].
    exact (proj1 (proj1 (proj2 (getTeacherInfo_undefined_and_empty
                                  "Math" (store blank_world)))) H).
  - assert (H : getTeacherInfo "toString" (store proto_world)
                = Some (Inherited "toString")) by (by vm_compute).
    split; [exact H|].
    exact (proj1 (proj2 (proj1 (proj1 (proj2 (proj2 (getTeacherInfo_undefined_and_empty
                    "toString" (store proto_world)))) "toString") H))).
Defined.

(** X22: an empty-string override is not removed by entering the server
    default.  When the override stored for the active class and the subject
    is the empty string and the subject has default D, saveTeacherInfo(S, D)
    changes nothing at all: the entry stays and getTeacherInfo keeps
    returning the empty string.  A non-empty name other than D replaces it,
    and entering D after that removes the entry. *)
Theorem empty_override_outlives_default_write (subj d info : string) (w : World) :
  defaultInfo (timetableData (store w)) subj = Some d →
  lookup_override (teacherInfo (store w)) (configKey (classConfig (store w))) subj
  = Some "" →
  run (saveTeacherInfo subj d) w = (Normal tt, w) ∧
  getTeacherInfo subj (store (exec (saveTeacherInfo subj d) w)) = Some (Stored "") ∧
  (info ≠ d → truthy info = true →
   lookup_override
     (teacherInfo (store (exec (saveTeacherInfo subj d)
                               (exec (saveTeacherInfo subj info) w))))
     (configKey (classConfig (store w))) subj = None).
Proof.
  intros Hd Hl.
  assert (Hrun : run (saveTeacherInfo subj d) w = (Normal tt, w)).
  { apply saveTeacherInfo_skip; [done|].
    by rewrite (read_override_stored _ _ _ _ Hl). }
  split; [done|]. split.
  - unfold exec. unfold run in Hrun. rewrite Hrun. simpl.
    unfold getTeacherInfo. by rewrite (read_override_stored _ _ _ _ Hl).
  - intros Hne Hinfo.
    destruct (saveTeacherInfo_frame subj info w) as (_ & Hcfg & Hdata & _).
    rewrite saveTeacherInfo_lookup. rewrite Hcfg, Hdata, Hd.
    rewrite decide_True by done.
    rewrite (bool_decide_false (Some d ≠ Some d)) by (intros H; by apply H).
    rewrite saveTeacherInfo_lookup. rewrite Hd.
    rewrite decide_True by done.
    rewrite (bool_decide_true (Some info ≠ Some d)) by congruence.
    simpl. by rewrite Hinfo.
Qed.

Lemma empty_override_outlives_default_write_witness :
  defaultInfo (timetableData (store blank_world)) "Math" = Some "Kim" ∧
  lookup_override (teacherInfo (store blank_world))
                  (configKey (classConfig (store blank_world))) "Math" = Some "" ∧
  run (saveTeacherInfo "Math" "Kim") blank_world = (Normal tt, blank_world).
Proof.
  assert (H1 : defaultInfo (timetableData (store blank_world)) "Math" = Some "Kim")
    by reflexivity.
  assert (H2 : lookup_override (teacherInfo (store blank_world))
                 (configKey (classConfig (store blank_world))) "Math" = Some "")
    by (by vm_compute).
  split; [exact H1|]. split; [exact H2|].
  exact (proj1 (empty_override_outlives_default_write
                  "Math" "Kim" "Lee" blank_world H1 H2)).
Defined.
